(** * The to-do collection of the web console: [Todo], [Operation],
      [ToDoResponse]/[EmptyResponse] and the [ToDoItems] collection.

    The TypeScript classes are embedded over an explicit object store.
    A [Todo] is a mutable object, so a to-do array is a list of references
    into the store and [processItems] writes [handleTrigger] through the
    reference. The closure [this.callbackHandle] that a collection installs
    in its todos is represented by the reference of the collection that
    owns it: every instance creates its own arrow function in its field
    initialiser, so the two are in one-to-one correspondence.

    An [async] method is a computation over the world that either resolves
    with a value or rejects with an exception. It runs to completion in one
    piece: the interleaving of two operations that are in flight at the same
    time is not part of this development. An array handed to [processItems]
    is read as the list of references it holds when the loop starts, and is a
    different array from the two the collection owns. *)

From Stdlib Require Import List String ZArith Bool Arith Permutation Lia.
Import ListNotations.

Local Open Scope Z_scope.
Local Open Scope string_scope.
Local Open Scope list_scope.

(** ** Values *)

(** A reference to an object of the store. *)
Definition loc := nat.

(** A JavaScript [Date], as its time value in milliseconds. *)
Definition Date := Z.

(** The dispatcher bound in [handleTrigger]: the [callbackHandle] closure of
    the collection with that reference. *)
Definition Dispatcher := loc.

(** interfaces.ts: the tagged union [Operation]. *)
Inductive Operation : Type :=
| Complete (cutOffDate : Date)
| Create (cutOffDate : Date)
| Delete (cutOffDate : Date)
| Reassign (newId : Z) (cutOffDate : Date).

(** What a [throw] carries: [new Error(message)], or the [TypeError] the
    engine raises when [for ... of] is given [null]. *)
Inductive Exn : Type :=
| Error (message : string)
| TypeError.

(** How a promise settles. *)
Inductive Outcome (A : Type) : Type :=
| Resolved (value : A)
| Rejected (reason : Exn).
Arguments Resolved {A} value.
Arguments Rejected {A} reason.

(** Truthiness of a [string | null]: [null] and the empty string are falsy. *)
Definition truthy (v : option string) : bool :=
  match v with
  | None => false
  | Some s => negb (String.eqb s "")
  end.

(** [ToString] of a [string | null], as [new Error(v)] applies it. *)
Definition js_to_string (v : option string) : string :=
  match v with
  | None => "null"
  | Some s => s
  end.

(** ** ToDoItem.ts: the [Todo] entity *)

Module Todo.

(** The fields of the class; [id], [assignedBy] and [assignedTo] are the
    integer keys of the database rows. *)
Record t : Type := mk {
  id : Z;
  name : string;
  dueDate : option Date;
  assignedBy : Z;
  assignedTo : Z;
  description : option string;
  dateAssigned : Date;
  dateFinished : option Date;
  finished : bool;
  handleTrigger : option Dispatcher
}.

(** The constructor's [params]; an absent optional property is [None]. *)
Record params : Type := mkParams {
  p_id : Z;
  p_name : string;
  p_assignedBy : Z;
  p_assignedTo : Z;
  p_dateAssigned : option Date;
  p_dueDate : option (option Date);
  p_description : option (option string);
  p_dateFinished : option (option Date);
  p_finished : option bool
}.

(** [a ?? b] on an optional, nullable property. *)
Definition nullish {A : Type} (v : option (option A)) : option A :=
  match v with
  | Some (Some a) => Some a
  | _ => None
  end.

(** [new Todo(params)], [now] being what [new Date()] gives. *)
Definition new (now : Date) (p : params) : t :=
  {| id := p_id p;
     name := p_name p;
     assignedBy := p_assignedBy p;
     assignedTo := p_assignedTo p;
     description := nullish (p_description p);
     dueDate := nullish (p_dueDate p);
     dateAssigned := match p_dateAssigned p with Some d => d | None => now end;
     dateFinished := nullish (p_dateFinished p);
     finished := match p_finished p with Some b => b | None => false end;
     handleTrigger := None |}.

(** The assignment [item.handleTrigger = h]. *)
Definition set_handleTrigger (h : option Dispatcher) (x : t) : t :=
  {| id := id x;
     name := name x;
     dueDate := dueDate x;
     assignedBy := assignedBy x;
     assignedTo := assignedTo x;
     description := description x;
     dateAssigned := dateAssigned x;
     dateFinished := dateFinished x;
     finished := finished x;
     handleTrigger := h |}.

End Todo.

(** The store of [Todo] objects: what each reference points to. *)
Definition Store := loc -> Todo.t.

Definition store_set (s : Store) (r : loc) (x : Todo.t) : Store :=
  fun r' => if Nat.eqb r' r then x else s r'.

(** ** utils.ts: the response envelopes *)

Record EmptyResponse : Type := mkEmptyResponse {
  code : Z;
  message : option string
}.

Record ToDoResponse : Type := mkToDoResponse {
  errorMessage : option string;
  toDos : option (list loc)
}.

(** The two shapes [ToDoResponseOptions] lets the constructor build. *)
Definition failure (msg : string) : ToDoResponse :=
  {| errorMessage := Some msg; toDos := None |}.

Definition success (items : list loc) : ToDoResponse :=
  {| errorMessage := None; toDos := Some items |}.

(** ** interfaces.ts: the capabilities of the remote collaborator *)

(** A capability call is a round trip to a collaborator that lives outside
    the collection: it sees the store of todos, may allocate or update todos
    there, and settles with a response or rejects. *)
Definition Remote := Store -> Outcome ToDoResponse * Store.

Module ItemGetter.
Record t : Type := mk {
  jwt : string;
  getItems : string -> Z -> Date -> Remote
}.
End ItemGetter.

Module FullItemProcess.
Record t : Type := mk {
  jwt : string;
  getItems : string -> Z -> Date -> Remote;
  completeItem : string -> Z -> Z -> Date -> Remote;
  deleteItem : string -> Z -> Z -> Date -> Remote;
  createItem : string -> Z -> loc -> Date -> Remote;
  reassignItem : string -> Z -> Z -> Z -> Date -> Remote
}.

(** [FullItemProcess] is an intersection that contains [ItemGetter]. *)
Definition asItemGetter (h : t) : ItemGetter.t :=
  {| ItemGetter.jwt := jwt h; ItemGetter.getItems := getItems h |}.
End FullItemProcess.

(** The capability calls, with the arguments they were given. *)
Inductive RemoteCall : Type :=
| GetItems (jwt : string) (userId : Z) (cutOffDate : Date)
| CompleteItem (jwt : string) (userId : Z) (toDoId : Z) (cutOffDate : Date)
| DeleteItem (jwt : string) (userId : Z) (toDoId : Z) (cutOffDate : Date)
| CreateItem (jwt : string) (userId : Z) (item : loc) (cutOffDate : Date)
| ReassignItem (jwt : string) (userId : Z) (toDoId : Z) (newUserId : Z)
    (cutOffDate : Date).

(** ** ToDoItems.ts: the collection *)

Record ToDoItems : Type := mkToDoItems {
  userId : Z;
  jwt : string;
  pendingItems : list loc;
  doneItems : list loc;
  interfaceHandle : FullItemProcess.t
}.

(** [new ToDoItems(id, jwt, interfaceHandle)]. *)
Definition new_ToDoItems (id : Z) (jwt : string)
    (interfaceHandle : FullItemProcess.t) : ToDoItems :=
  {| userId := id;
     jwt := jwt;
     pendingItems := [];
     doneItems := [];
     interfaceHandle := interfaceHandle |}.

(** The world: the todos, the collections, and the capability calls made so
    far, oldest first. *)
Record World : Type := mkWorld {
  todos : Store;
  collections : loc -> ToDoItems;
  calls : list RemoteCall
}.

(** *** The monad of [async] methods *)

Definition M (A : Type) : Type := World -> Outcome A * World.

Definition ret {A : Type} (a : A) : M A := fun w => (Resolved a, w).

Definition throw {A : Type} (e : Exn) : M A := fun w => (Rejected e, w).

Definition bind {A B : Type} (m : M A) (k : A -> M B) : M B :=
  fun w =>
    match m w with
    | (Resolved a, w') => k a w'
    | (Rejected e, w') => (Rejected e, w')
    end.

Notation "x <- m ;; k" := (bind m (fun x => k))
  (at level 61, m at next level, right associativity).
Notation "m ;;; k" := (bind m (fun _ => k))
  (at level 61, right associativity).

(** [for (const x of xs) body]. *)
Fixpoint for_of {A : Type} (xs : list A) (body : A -> M unit) : M unit :=
  match xs with
  | [] => ret tt
  | x :: rest => body x ;;; for_of rest body
  end.

(** Reading an object. *)
Definition read_todo (r : loc) : M Todo.t := fun w => (Resolved (todos w r), w).

Definition this_ (self : loc) : M ToDoItems :=
  fun w => (Resolved (collections w self), w).

(** Writing a collection's fields. *)
Definition update_collection (self : loc) (f : ToDoItems -> ToDoItems)
    (w : World) : World :=
  {| todos := todos w;
     collections :=
       fun c => if Nat.eqb c self then f (collections w self)
                else collections w c;
     calls := calls w |}.

(** [item.handleTrigger = this.callbackHandle]. *)
Definition bind_trigger (self : loc) (item : loc) : M unit :=
  fun w =>
    (Resolved tt,
     {| todos := store_set (todos w) item
                   (Todo.set_handleTrigger (Some self) (todos w item));
        collections := collections w;
        calls := calls w |}).

(** [this.doneItems.push(item)]. *)
Definition push_done (self : loc) (item : loc) : M unit :=
  fun w =>
    (Resolved tt,
     update_collection self
       (fun c => {| userId := userId c;
                    jwt := jwt c;
                    pendingItems := pendingItems c;
                    doneItems := doneItems c ++ [item];
                    interfaceHandle := interfaceHandle c |}) w).

(** [this.pendingItems.push(item)]. *)
Definition push_pending (self : loc) (item : loc) : M unit :=
  fun w =>
    (Resolved tt,
     update_collection self
       (fun c => {| userId := userId c;
                    jwt := jwt c;
                    pendingItems := pendingItems c ++ [item];
                    doneItems := doneItems c;
                    interfaceHandle := interfaceHandle c |}) w).

(** [await f(...)]: the call is recorded, the collaborator runs on the store,
    and a rejection is rethrown. *)
Definition await_remote (ev : RemoteCall) (f : Remote) : M ToDoResponse :=
  fun w =>
    let (r, s) := f (todos w) in
    (r, {| todos := s;
           collections := collections w;
           calls := calls w ++ [ev] |}).

(** *** The methods *)

(** [handleResponse]: an array, empty or not, is truthy and is returned;
    with [toDos] null the error message is thrown. *)
Definition handleResponse (response : ToDoResponse) : M (list loc) :=
  match toDos response with
  | Some items => ret items
  | None => throw (Error (js_to_string (errorMessage response)))
  end.

(** [completeItem], [deleteItem], [createItem] and [reassignItem]: one
    capability call of [this.interfaceHandle] with the collection's [jwt]
    and [userId], then [handleResponse]. *)
Definition completeItem (self : loc) (item : loc) (cutOffDate : Date)
    : M (list loc) :=
  this <- this_ self ;;
  it <- read_todo item ;;
  response <- await_remote
      (CompleteItem (jwt this) (userId this) (Todo.id it) cutOffDate)
      (FullItemProcess.completeItem (interfaceHandle this)
         (jwt this) (userId this) (Todo.id it) cutOffDate) ;;
  handleResponse response.

Definition deleteItem (self : loc) (item : loc) (cutOffDate : Date)
    : M (list loc) :=
  this <- this_ self ;;
  it <- read_todo item ;;
  response <- await_remote
      (DeleteItem (jwt this) (userId this) (Todo.id it) cutOffDate)
      (FullItemProcess.deleteItem (interfaceHandle this)
         (jwt this) (userId this) (Todo.id it) cutOffDate) ;;
  handleResponse response.

Definition createItem (self : loc) (item : loc) (cutOffDate : Date)
    : M (list loc) :=
  this <- this_ self ;;
  response <- await_remote
      (CreateItem (jwt this) (userId this) item cutOffDate)
      (FullItemProcess.createItem (interfaceHandle this)
         (jwt this) (userId this) item cutOffDate) ;;
  handleResponse response.

Definition reassignItem (self : loc) (item : loc) (newId : Z)
    (cutOffDate : Date) : M (list loc) :=
  this <- this_ self ;;
  it <- read_todo item ;;
  response <- await_remote
      (ReassignItem (jwt this) (userId this) (Todo.id it) newId cutOffDate)
      (FullItemProcess.reassignItem (interfaceHandle this)
         (jwt this) (userId this) (Todo.id it) newId cutOffDate) ;;
  handleResponse response.

(** [processItems]: each item is bound to [this.callbackHandle] and pushed
    on [doneItems] or [pendingItems] after its [finished] flag. *)
Definition processItems (self : loc) (items : list loc) : M unit :=
  for_of items (fun item =>
    bind_trigger self item ;;;
    it <- read_todo item ;;
    if Todo.finished it then push_done self item
    else push_pending self item).

(** [callbackHandle]: the [switch] on [operation.type]. *)
Definition callbackHandle (self : loc) (item : loc) (operation : Operation)
    : M unit :=
  match operation with
  | Complete cutOffDate =>
      items <- completeItem self item cutOffDate ;; processItems self items
  | Delete cutOffDate =>
      items <- deleteItem self item cutOffDate ;; processItems self items
  | Create cutOffDate =>
      items <- createItem self item cutOffDate ;; processItems self items
  | Reassign newId cutOffDate =>
      items <- reassignItem self item newId cutOffDate ;;
      processItems self items
  end.

(** [populateItems]: [getItems] is called with the getter's [jwt]; the
    response is a success when [errorMessage] is falsy, and [items.toDos!]
    then goes to [processItems], whose loop throws on [null]. *)
Definition populateItems (self : loc) (getter : ItemGetter.t) (userId : Z)
    (cutOffDate : Date) : M EmptyResponse :=
  items <- await_remote
      (GetItems (ItemGetter.jwt getter) userId cutOffDate)
      (ItemGetter.getItems getter (ItemGetter.jwt getter) userId cutOffDate) ;;
  if negb (truthy (errorMessage items)) then
    match toDos items with
    | Some l =>
        processItems self l ;;;
        ret {| code := 0; message := None |}
    | None => throw TypeError
    end
  else ret {| code := 1; message := errorMessage items |}.

(** ToDoItem.ts, [Todo.performOperation]: the bound trigger, if there is one,
    is the dispatcher of some collection and is awaited. *)
Definition performOperation (this : loc) (operation : Operation) : M unit :=
  it <- read_todo this ;;
  match Todo.handleTrigger it with
  | Some trigger => callbackHandle trigger this operation
  | None => ret tt
  end.

(** * Auxiliary definitions *)

(** The state a computation ends in, and how it settles. *)
Definition final {A : Type} (m : M A) (w : World) : World := snd (m w).
Definition outcome {A : Type} (m : M A) (w : World) : Outcome A := fst (m w).

(** The elements of a to-do list that are pending, and those that are done,
    as the store [s] has their [finished] flag. *)
Definition unfinished_of (s : Store) (items : list loc) : list loc :=
  filter (fun r => negb (Todo.finished (s r))) items.

Definition finished_of (s : Store) (items : list loc) : list loc :=
  filter (fun r => Todo.finished (s r)) items.

(** The world after the body of the loop of [processItems] has run for
    [item]. *)
Definition process_one (self : loc) (item : loc) (w : World) : World :=
  final (bind_trigger self item ;;;
         it <- read_todo item ;;
         if Todo.finished it then push_done self item
         else push_pending self item) w.

(** The world once a capability call [ev] has come back leaving the store
    [s]. *)
Definition responded (ev : RemoteCall) (s : Store) (w : World) : World :=
  {| todos := s; collections := collections w; calls := calls w ++ [ev] |}.

(** What the gate [handleResponse] lets through: the rest of a dispatch once
    the collaborator has settled with [r]. *)
Definition settle (self : loc) (r : Outcome ToDoResponse) : M unit :=
  fun w =>
    match r with
    | Resolved response =>
        match toDos response with
        | Some items => processItems self items w
        | None =>
            (Rejected (Error (js_to_string (errorMessage response))), w)
        end
    | Rejected e => (Rejected e, w)
    end.

(** The capability call the text of section 4.2 assigns to each operation
    tag, for the collection [c] and the todo [it] found at [item]. *)
Definition capability_call (c : ToDoItems) (it : Todo.t) (item : loc)
    (operation : Operation) : RemoteCall :=
  match operation with
  | Complete cutOffDate =>
      CompleteItem (jwt c) (userId c) (Todo.id it) cutOffDate
  | Delete cutOffDate =>
      DeleteItem (jwt c) (userId c) (Todo.id it) cutOffDate
  | Create cutOffDate =>
      CreateItem (jwt c) (userId c) item cutOffDate
  | Reassign newId cutOffDate =>
      ReassignItem (jwt c) (userId c) (Todo.id it) newId cutOffDate
  end.

(** The collaborator's method that answers a capability call. *)
Definition answer (h : FullItemProcess.t) (ev : RemoteCall) : Remote :=
  match ev with
  | GetItems j u d => FullItemProcess.getItems h j u d
  | CompleteItem j u i d => FullItemProcess.completeItem h j u i d
  | DeleteItem j u i d => FullItemProcess.deleteItem h j u i d
  | CreateItem j u i d => FullItemProcess.createItem h j u i d
  | ReassignItem j u i n d => FullItemProcess.reassignItem h j u i n d
  end.

(** The todos a collection holds. *)
Definition members (c : ToDoItems) : list loc :=
  pendingItems c ++ doneItems c.

(** Every todo the collection at [self] holds has [handleTrigger] bound to
    the dispatcher of that collection. *)
Definition all_bound (self : loc) (w : World) : Prop :=
  forall r, In r (members (collections w self)) ->
    Todo.handleTrigger (todos w r) = Some self.

(** The collaborator's call [f] leaves the trigger of the todos the
    collection holds as it finds it. *)
Definition keeps_bindings (self : loc) (w : World) (f : Remote) : Prop :=
  forall r, In r (members (collections w self)) ->
    Todo.handleTrigger (snd (f (todos w)) r) = Todo.handleTrigger (todos w r).

(** ** Concrete collaborators and worlds, for the examples below *)

Module Sample.

(** A collaborator that answers every capability call with [f]. *)
Definition collaborator (token : string) (f : Remote) : FullItemProcess.t :=
  {| FullItemProcess.jwt := token;
     FullItemProcess.getItems := fun _ _ _ => f;
     FullItemProcess.completeItem := fun _ _ _ _ => f;
     FullItemProcess.deleteItem := fun _ _ _ _ => f;
     FullItemProcess.createItem := fun _ _ _ _ => f;
     FullItemProcess.reassignItem := fun _ _ _ _ _ => f |}.

(** It returns the todos [items] and leaves the store alone. *)
Definition serving (items : list loc) : Remote :=
  fun s => (Resolved (success items), s).

(** It fails with the message [msg]. *)
Definition failing (msg : string) : Remote :=
  fun s => (Resolved (failure msg), s).

(** Marking a todo as finished at time [d]. *)
Definition finish (d : Date) (x : Todo.t) : Todo.t :=
  {| Todo.id := Todo.id x;
     Todo.name := Todo.name x;
     Todo.dueDate := Todo.dueDate x;
     Todo.assignedBy := Todo.assignedBy x;
     Todo.assignedTo := Todo.assignedTo x;
     Todo.description := Todo.description x;
     Todo.dateAssigned := Todo.dateAssigned x;
     Todo.dateFinished := Some d;
     Todo.finished := true;
     Todo.handleTrigger := Todo.handleTrigger x |}.

(** An in-memory collaborator that keeps its todos in the store: it marks
    the todo at [r] as finished and returns it. *)
Definition finishing (r : loc) : Remote :=
  fun s => (Resolved (success [r]), store_set s r (finish 2000 (s r))).

(** A collaborator that hands out a new object, at [r'], for the todo it
    has at [r], finished. *)
Definition reissuing (r r' : loc) : Remote :=
  fun s => (Resolved (success [r']), store_set s r' (finish 2000 (s r))).

(** The todo with identifier [n], as [new Todo] makes it at time 1000. *)
Definition entry (n : Z) : Todo.t :=
  Todo.new 1000
    {| Todo.p_id := n;
       Todo.p_name := "write the report";
       Todo.p_assignedBy := 10;
       Todo.p_assignedTo := 20;
       Todo.p_dateAssigned := None;
       Todo.p_dueDate := None;
       Todo.p_description := None;
       Todo.p_dateFinished := None;
       Todo.p_finished := None |}.

(** A store in which the object at [r] is the todo number [r]. *)
Definition store0 : Store := fun r => entry (Z.of_nat r).

Definition T1 : loc := 1%nat.
Definition T2 : loc := 2%nat.
Definition T3 : loc := 3%nat.

(** A world whose collections are all fresh from the constructor, bound to
    the collaborator [h]. *)
Definition fresh (h : FullItemProcess.t) : World :=
  {| todos := store0;
     collections := fun _ => new_ToDoItems 20 "jwt-20" h;
     calls := [] |}.

(** The collection under study, and another one. *)
Definition here : loc := 0%nat.
Definition there : loc := 5%nat.

(** The world in which the collection [here] has processed [[T1]], which is
    unfinished: it holds [T1] as its only pending todo and no done todo. *)
Definition holding_T1 (h : FullItemProcess.t) : World :=
  final (processItems here [T1]) (fresh h).

(** The collaborators of the scenarios. *)
Definition in_memory : FullItemProcess.t := collaborator "jwt-20" (finishing T1).
Definition not_found : FullItemProcess.t :=
  collaborator "jwt-20" (failing "not found").
Definition speechless : FullItemProcess.t := collaborator "jwt-20" (failing "").
Definition archive : FullItemProcess.t := collaborator "jwt-20" (finishing T2).

(** [getItems] has answered in the world [w], leaving the store [s]. *)
Definition got (s : Store) (w : World) : World :=
  responded (GetItems "jwt-20" 20 0) s w.

(** The collection [there] belongs to another user, with another token. *)
Definition two_users (h : FullItemProcess.t) : World :=
  update_collection there
    (fun c => {| userId := 21;
                 jwt := "jwt-21";
                 pendingItems := pendingItems c;
                 doneItems := doneItems c;
                 interfaceHandle := interfaceHandle c |})
    (fresh h).

End Sample.

(** * ToDoItem.ts: the [NewTodo] class *)

Module NewTodo.

(** The fields of the class: a todo that the database has not numbered
    yet. *)
Record t : Type := mk {
  name : string;
  dueDate : option Date;
  assignedBy : Z;
  assignedTo : Z;
  description : option string;
  dateAssigned : option Date
}.

(** The constructor's [params]; an absent optional property is [None]. *)
Record params : Type := mkParams {
  p_name : string;
  p_assignedBy : Z;
  p_assignedTo : Z;
  p_dueDate : option (option Date);
  p_description : option (option string);
  p_dateAssigned : option (option Date)
}.

(** [new NewTodo(params)]. *)
Definition new (p : params) : t :=
  {| name := p_name p;
     assignedBy := p_assignedBy p;
     assignedTo := p_assignedTo p;
     dueDate := Todo.nullish (p_dueDate p);
     description := Todo.nullish (p_description p);
     dateAssigned := Todo.nullish (p_dateAssigned p) |}.

(** [assignDate(date = new Date())]: an omitted argument is [None] and
    defaults to [now], what [new Date()] gives. *)
Definition assignDate (now : Date) (date : option Date) (x : t) : t :=
  {| name := name x;
     dueDate := dueDate x;
     assignedBy := assignedBy x;
     assignedTo := assignedTo x;
     description := description x;
     dateAssigned := Some (match date with Some d => d | None => now end) |}.

(** The [params] with their [dateAssigned] property set to [d]. *)
Definition dated (d : Date) (p : params) : params :=
  {| p_name := p_name p;
     p_assignedBy := p_assignedBy p;
     p_assignedTo := p_assignedTo p;
     p_dueDate := p_dueDate p;
     p_description := p_description p;
     p_dateAssigned := Some (Some d) |}.

End NewTodo.

(** * Further auxiliary definitions *)

(** A collection [c'] is the collection [c] with todos appended to its two
    arrays, [p] to [pendingItems] and [d] to [doneItems], and nothing else
    changed. *)
Definition extended_by (p d : list loc) (c c' : ToDoItems) : Prop :=
  userId c' = userId c
  /\ jwt c' = jwt c
  /\ interfaceHandle c' = interfaceHandle c
  /\ pendingItems c' = pendingItems c ++ p
  /\ doneItems c' = doneItems c ++ d.

Definition extended (c c' : ToDoItems) : Prop :=
  exists p d, extended_by p d c c'.

(** What of a todo is data: all its fields but the trigger. *)
Definition data_of (x : Todo.t) : Todo.t := Todo.set_handleTrigger None x.

(** The collection at [self] is sorted after the [finished] flags of the
    store: what is pending is unfinished and what is done is finished. *)
Definition sorted_by_flag (self : loc) (w : World) : Prop :=
  (forall r, In r (pendingItems (collections w self)) ->
     Todo.finished (todos w r) = false)
  /\ (forall r, In r (doneItems (collections w self)) ->
       Todo.finished (todos w r) = true).

(** The collaborator's call [f] leaves the [finished] flag of the todos the
    collection holds as it finds it. *)
Definition keeps_flags (self : loc) (w : World) (f : Remote) : Prop :=
  forall r, In r (members (collections w self)) ->
    Todo.finished (snd (f (todos w)) r) = Todo.finished (todos w r).

(** How often a collection holds the todo [r]. *)
Definition held (c : ToDoItems) (r : loc) : nat :=
  count_occ Nat.eq_dec (members c) r.

(** The operations that settle with a capability call, each with the
    collection that runs it. [performOperation] on a bound todo is the
    dispatch of the collection it is bound to. *)
Inductive Action : Type :=
| Populate (actor : loc) (getter : ItemGetter.t) (user : Z)
    (cutOffDate : Date)
| Dispatch (actor : loc) (item : loc) (operation : Operation).

Definition actor (a : Action) : loc :=
  match a with
  | Populate c _ _ _ => c
  | Dispatch c _ _ => c
  end.








(** Concrete collaborators and worlds for the further properties. *)
Module Demo.

(** A collaborator whose calls all reject with [e]. *)
Definition rejecting (e : Exn) : Remote := fun s => (Rejected e, s).

Definition offline : FullItemProcess.t :=
  Sample.collaborator "jwt-20" (rejecting (Error "network down")).

(** A collaborator that answers [[T1; T2]] after marking [T2] finished. *)
Definition listing : Remote :=
  fun s =>
    (Resolved (success [Sample.T1; Sample.T2]),
     store_set s Sample.T2 (Sample.finish 2000 (s Sample.T2))).

Definition backend : FullItemProcess.t :=
  Sample.collaborator "jwt-20" listing.

(** A collaborator that confirms a deletion with the empty list. *)
Definition emptied : FullItemProcess.t :=
  Sample.collaborator "jwt-20" (Sample.serving []).

(** The world after the collection [here], fresh, was populated from
    [backend]. *)
Definition populated : World :=
  final (populateItems Sample.here
           (FullItemProcess.asItemGetter backend) 20 0)
    (Sample.fresh backend).

(** The parameters of a new todo without a date. *)
Definition draft : NewTodo.params :=
  {| NewTodo.p_name := "write the report";
     NewTodo.p_assignedBy := 10;
     NewTodo.p_assignedTo := 20;
     NewTodo.p_dueDate := None;
     NewTodo.p_description := Some None;
     NewTodo.p_dateAssigned := None |}.

(** A collaborator that answers the full set, [[T1; T2]], at every call. *)
Definition full_set : FullItemProcess.t :=
  Sample.collaborator "jwt-20" (Sample.serving [Sample.T1; Sample.T2]).

(** A collaborator that answers what is new: [[T1]] as long as no collection
    has processed [T1], and [[T2]] from then on. *)
Definition delta : Remote :=
  fun s =>
    match Todo.handleTrigger (s Sample.T1) with
    | None => (Resolved (success [Sample.T1]), s)
    | Some _ => (Resolved (success [Sample.T2]), s)
    end.

Definition deltas : FullItemProcess.t := Sample.collaborator "jwt-20" delta.

(** The collection [here], fresh, populated twice from [h]. *)
Definition populated_twice (h : FullItemProcess.t) : World :=
  final (populateItems Sample.here (FullItemProcess.asItemGetter h) 20 0)
    (final (populateItems Sample.here (FullItemProcess.asItemGetter h) 20 0)
       (Sample.fresh h)).




(** The parameters of [Sample.entry]. *)
Definition required (n : Z) : Todo.params :=
  {| Todo.p_id := n;
     Todo.p_name := "write the report";
     Todo.p_assignedBy := 10;
     Todo.p_assignedTo := 20;
     Todo.p_dateAssigned := None;
     Todo.p_dueDate := None;
     Todo.p_description := None;
     Todo.p_dateFinished := None;
     Todo.p_finished := None |}.

End Demo.

(** * Properties *)

(** ** The constructor of [Todo] *)

(** The defaults the tests of the entity expect of a todo built from the
    required fields alone. *)
Example new_Todo_defaults :
  Todo.id (Sample.entry 1) = 1
  /\ Todo.assignedBy (Sample.entry 1) = 10
  /\ Todo.assignedTo (Sample.entry 1) = 20
  /\ Todo.finished (Sample.entry 1) = false
  /\ Todo.dateFinished (Sample.entry 1) = None
  /\ Todo.description (Sample.entry 1) = None
  /\ Todo.dueDate (Sample.entry 1) = None
  /\ Todo.dateAssigned (Sample.entry 1) = 1000
  /\ Todo.handleTrigger (Sample.entry 1) = None.
Proof. repeat split. Qed.

(** ** One turn of the loop of [processItems] *)

Section ProcessItems.

Variable self : loc.

Lemma processItems_nil w : processItems self [] w = (Resolved tt, w).
Proof. reflexivity. Qed.

Lemma processItems_cons item rest w :
  processItems self (item :: rest) w
  = processItems self rest (process_one self item w).
Proof.
  unfold processItems, process_one, final. cbn [for_of].
  unfold bind at 1.
  match goal with
  | |- context [match ?m w with _ => _ end] =>
      destruct (m w) as [[[]|e] w1] eqn:E
  end.
  - reflexivity.
  - exfalso. revert E.
    unfold bind, bind_trigger, read_todo, push_done, push_pending.
    destruct (Todo.finished _); discriminate.
Qed.

Lemma processItems_resolves items :
  forall w, outcome (processItems self items) w = Resolved tt.
Proof.
  induction items as [|item rest IH]; intro w.
  - reflexivity.
  - unfold outcome in *. rewrite processItems_cons. apply IH.
Qed.

Lemma store_set_same s r x : store_set s r x r = x.
Proof. unfold store_set. now rewrite Nat.eqb_refl. Qed.

Lemma process_one_todos item w r :
  todos (process_one self item w) r
  = if Nat.eqb r item
    then Todo.set_handleTrigger (Some self) (todos w item)
    else todos w r.
Proof.
  unfold process_one, final, bind, bind_trigger, read_todo; cbn [todos].
  destruct (Todo.finished _); reflexivity.
Qed.

Lemma process_one_finished item w r :
  Todo.finished (todos (process_one self item w) r) = Todo.finished (todos w r).
Proof.
  rewrite process_one_todos.
  destruct (Nat.eqb_spec r item) as [->|]; reflexivity.
Qed.

Lemma process_one_calls item w : calls (process_one self item w) = calls w.
Proof.
  unfold process_one, final, bind, bind_trigger, read_todo; cbn [todos].
  destruct (Todo.finished _); reflexivity.
Qed.

Lemma process_one_pending item w :
  pendingItems (collections (process_one self item w) self)
  = pendingItems (collections w self) ++ unfinished_of (todos w) [item].
Proof.
  unfold process_one, final, bind, bind_trigger, read_todo; cbn [todos].
  rewrite store_set_same. cbn [Todo.set_handleTrigger Todo.finished].
  unfold unfinished_of; cbn [filter].
  destruct (Todo.finished (todos w item)); cbn;
    rewrite Nat.eqb_refl; cbn; [now rewrite app_nil_r | reflexivity].
Qed.

Lemma process_one_done item w :
  doneItems (collections (process_one self item w) self)
  = doneItems (collections w self) ++ finished_of (todos w) [item].
Proof.
  unfold process_one, final, bind, bind_trigger, read_todo; cbn [todos].
  rewrite store_set_same. cbn [Todo.set_handleTrigger Todo.finished].
  unfold finished_of; cbn [filter].
  destruct (Todo.finished (todos w item)); cbn;
    rewrite Nat.eqb_refl; cbn; [reflexivity | now rewrite app_nil_r].
Qed.

(** The loop writes no field of the collection but its two arrays, and
    touches no other collection. *)
Lemma process_one_frame item w :
  userId (collections (process_one self item w) self) = userId (collections w self)
  /\ jwt (collections (process_one self item w) self) = jwt (collections w self)
  /\ interfaceHandle (collections (process_one self item w) self)
     = interfaceHandle (collections w self)
  /\ forall c, c <> self ->
       collections (process_one self item w) c = collections w c.
Proof.
  unfold process_one, final, bind, bind_trigger, read_todo; cbn [todos].
  destruct (Todo.finished _); cbn; rewrite Nat.eqb_refl; cbn;
    repeat split; intros c Hc;
    destruct (Nat.eqb_spec c self); congruence.
Qed.

Lemma filter_cons_app {A} (f : A -> bool) x l :
  filter f (x :: l) = filter f [x] ++ filter f l.
Proof. cbn. destruct (f x); reflexivity. Qed.

Lemma filter_finished_ext (s s' : Store) (p : bool -> bool) items :
  (forall r, Todo.finished (s' r) = Todo.finished (s r)) ->
  filter (fun r => p (Todo.finished (s' r))) items
  = filter (fun r => p (Todo.finished (s r))) items.
Proof.
  intro H. apply filter_ext. intro r. now rewrite H.
Qed.

Lemma processItems_finished items :
  forall w r,
    Todo.finished (todos (final (processItems self items) w) r)
    = Todo.finished (todos w r).
Proof.
  induction items as [|item rest IH]; intros w r.
  - reflexivity.
  - unfold final in *. rewrite processItems_cons, IH.
    apply process_one_finished.
Qed.

Lemma processItems_calls items :
  forall w, calls (final (processItems self items) w) = calls w.
Proof.
  induction items as [|item rest IH]; intro w.
  - reflexivity.
  - unfold final in *. rewrite processItems_cons, IH.
    apply process_one_calls.
Qed.

Lemma processItems_pending items :
  forall w,
    pendingItems (collections (final (processItems self items) w) self)
    = pendingItems (collections w self) ++ unfinished_of (todos w) items.
Proof.
  induction items as [|item rest IH]; intro w.
  - cbn. now rewrite app_nil_r.
  - unfold final in *. rewrite processItems_cons, IH, process_one_pending.
    rewrite <- app_assoc. f_equal.
    unfold unfinished_of.
    rewrite (filter_cons_app _ item rest). f_equal.
    apply (filter_finished_ext _ _ negb), process_one_finished.
Qed.

Lemma processItems_done items :
  forall w,
    doneItems (collections (final (processItems self items) w) self)
    = doneItems (collections w self) ++ finished_of (todos w) items.
Proof.
  induction items as [|item rest IH]; intro w.
  - cbn. now rewrite app_nil_r.
  - unfold final in *. rewrite processItems_cons, IH, process_one_done.
    rewrite <- app_assoc. f_equal.
    unfold finished_of.
    rewrite (filter_cons_app _ item rest). f_equal.
    apply (filter_finished_ext _ _ (fun b => b)), process_one_finished.
Qed.

Lemma processItems_frame items :
  forall w,
    userId (collections (final (processItems self items) w) self)
    = userId (collections w self)
    /\ jwt (collections (final (processItems self items) w) self)
       = jwt (collections w self)
    /\ interfaceHandle (collections (final (processItems self items) w) self)
       = interfaceHandle (collections w self)
    /\ forall c, c <> self ->
         collections (final (processItems self items) w) c = collections w c.
Proof.
  induction items as [|item rest IH]; intro w.
  - cbn. repeat split.
  - unfold final in *. rewrite processItems_cons.
    destruct (IH (process_one self item w)) as (Hu & Hj & Hi & Hc).
    destruct (process_one_frame item w) as (Hu' & Hj' & Hi' & Hc').
    repeat split; try congruence.
    intros c Hne. rewrite Hc, Hc'; auto.
Qed.

(** What the loop leaves in the store: the processed todos have their
    trigger set, and nothing else is written. *)
Lemma processItems_todos items :
  forall w r,
    todos (final (processItems self items) w) r
    = if existsb (Nat.eqb r) items
      then Todo.set_handleTrigger (Some self) (todos w r)
      else todos w r.
Proof.
  induction items as [|item rest IH]; intros w r.
  - reflexivity.
  - unfold final in *. rewrite processItems_cons, IH, process_one_todos.
    cbn [existsb].
    destruct (Nat.eqb_spec r item) as [->|Hne]; cbn [orb].
    + destruct (existsb (Nat.eqb item) rest); reflexivity.
    + reflexivity.
Qed.

Lemma existsb_eqb_In r items : existsb (Nat.eqb r) items = true <-> In r items.
Proof.
  rewrite existsb_exists. split.
  - intros (x & Hx & E). apply Nat.eqb_eq in E. now subst.
  - intro H. exists r. split; [exact H | apply Nat.eqb_refl].
Qed.

(** Every processed todo ends up bound to this collection's dispatcher. *)
Lemma processItems_binds items w r :
  In r items ->
  Todo.handleTrigger (todos (final (processItems self items) w) r)
  = Some self.
Proof.
  intro Hin. rewrite processItems_todos.
  apply existsb_eqb_In in Hin. now rewrite Hin.
Qed.

(** A todo that is not processed is not written. *)
Lemma processItems_other items w r :
  ~ In r items ->
  todos (final (processItems self items) w) r = todos w r.
Proof.
  intro Hin. rewrite processItems_todos.
  destruct (existsb (Nat.eqb r) items) eqn:E; [|reflexivity].
  apply existsb_eqb_In in E. contradiction.
Qed.

(** The loop only ever writes this collection's dispatcher, so a trigger
    that was this dispatcher before still is. *)
Lemma processItems_keeps_bound items w r :
  Todo.handleTrigger (todos w r) = Some self ->
  Todo.handleTrigger (todos (final (processItems self items) w) r)
  = Some self.
Proof.
  intro H. rewrite processItems_todos.
  destruct (existsb (Nat.eqb r) items); [reflexivity | exact H].
Qed.

End ProcessItems.

(** ** The capability call behind each method *)

(** Case analysis on how the one capability call of the goal settles. *)
Ltac settle_call :=
  match goal with
  | |- context [FullItemProcess.completeItem ?h ?j ?u ?i ?d ?s] =>
      destruct (FullItemProcess.completeItem h j u i d s) as [[? | ?] ?]
  | |- context [FullItemProcess.deleteItem ?h ?j ?u ?i ?d ?s] =>
      destruct (FullItemProcess.deleteItem h j u i d s) as [[? | ?] ?]
  | |- context [FullItemProcess.createItem ?h ?j ?u ?i ?d ?s] =>
      destruct (FullItemProcess.createItem h j u i d s) as [[? | ?] ?]
  | |- context [FullItemProcess.reassignItem ?h ?j ?u ?i ?n ?d ?s] =>
      destruct (FullItemProcess.reassignItem h j u i n d s) as [[? | ?] ?]
  end.

Lemma callbackHandle_run self item operation w :
  let c := collections w self in
  let ev := capability_call c (todos w item) item operation in
  let r := answer (interfaceHandle c) ev (todos w) in
  callbackHandle self item operation w
  = settle self (fst r) (responded ev (snd r) w).
Proof.
  destruct operation; cbn;
    unfold completeItem, deleteItem, createItem, reassignItem,
      bind, this_, read_todo, await_remote, settle, responded,
      handleResponse, ret, throw;
    settle_call; cbn; try reflexivity;
    match goal with
    | |- context [toDos ?response] => destruct (toDos response)
    end; reflexivity.
Qed.

Lemma populateItems_run self getter user cutOffDate w :
  let ev := GetItems (ItemGetter.jwt getter) user cutOffDate in
  let r := ItemGetter.getItems getter (ItemGetter.jwt getter) user cutOffDate
             (todos w) in
  let w1 := responded ev (snd r) w in
  populateItems self getter user cutOffDate w
  = match fst r with
    | Resolved items =>
        if truthy (errorMessage items)
        then (Resolved {| code := 1; message := errorMessage items |}, w1)
        else match toDos items with
             | Some l =>
                 (Resolved {| code := 0; message := None |},
                  final (processItems self l) w1)
             | None => (Rejected TypeError, w1)
             end
    | Rejected e => (Rejected e, w1)
    end.
Proof.
  cbn. unfold populateItems, bind, await_remote, responded.
  destruct (ItemGetter.getItems _ _ _ _ _) as [[items|e] s]; cbn;
    [|reflexivity].
  destruct (truthy (errorMessage items)); cbn; [reflexivity|].
  destruct (toDos items) as [l|]; [|reflexivity].
  pose proof (processItems_resolves self l
    {| todos := s; collections := collections w;
       calls := calls w ++ [GetItems (ItemGetter.jwt getter) user cutOffDate] |})
    as Hres.
  unfold outcome, final in *.
  destruct (processItems self l _) as [o w']; cbn in *. subst o.
  reflexivity.
Qed.

(** A dispatch makes its capability call, and no other, whatever comes back. *)
Lemma callbackHandle_calls self item operation w :
  calls (final (callbackHandle self item operation) w)
  = calls w
    ++ [capability_call (collections w self) (todos w item) item operation].
Proof.
  unfold final. rewrite callbackHandle_run. cbn zeta.
  destruct (answer _ _ _) as [[response|e] s]; cbn; [|reflexivity].
  destruct (toDos response) as [l|]; [|reflexivity].
  apply (processItems_calls self l).
Qed.

(** ** C1: [processItems] appends *)

Lemma halves_permutation (s : Store) (items : list loc) :
  Permutation (unfinished_of s items ++ finished_of s items) items.
Proof.
  unfold unfinished_of, finished_of.
  induction items as [|item rest IH]; cbn [filter].
  - constructor.
  - destruct (Todo.finished (s item)); cbn [negb].
    + apply Permutation_sym, Permutation_cons_app, Permutation_sym, IH.
    + cbn. now constructor.
Qed.

(** A pass raises the number of times a todo is held by the number of times
    it is in the processed list. *)
Lemma held_processItems self items w r :
  held (collections (final (processItems self items) w) self) r
  = (held (collections w self) r + count_occ Nat.eq_dec items r)%nat.
Proof.
  unfold held, members. rewrite processItems_pending, processItems_done.
  pose proof (halves_permutation (todos w) items) as Hperm.
  apply (Permutation_count_occ Nat.eq_dec) with (x := r) in Hperm.
  rewrite !count_occ_app in *. lia.
Qed.

(** C1, as stated, fails in its last clause. A collaborator that returns the
    full set, [[T1; T2]], at every call makes the second [populateItems]
    hold every todo twice; a collaborator that returns deltas, [[T1]] and
    then [[T2]], never the full set, gives no duplicate. *)
Lemma full_set_accumulates_duplicates :
  (fst (FullItemProcess.getItems Demo.full_set "jwt-20" 20 0 Sample.store0)
   = Resolved (success [Sample.T1; Sample.T2])
   /\ pendingItems
        (collections (Demo.populated_twice Demo.full_set) Sample.here)
      = [Sample.T1; Sample.T2; Sample.T1; Sample.T2]
   /\ ~ NoDup
          (pendingItems
             (collections (Demo.populated_twice Demo.full_set) Sample.here)))
  /\ (pendingItems
        (collections (Demo.populated_twice Demo.deltas) Sample.here)
      = [Sample.T1; Sample.T2]
      /\ NoDup
           (pendingItems
              (collections (Demo.populated_twice Demo.deltas) Sample.here))).
Proof.
  split.
  - split; [reflexivity|]. split; [reflexivity|].
    intro H. change (NoDup [Sample.T1; Sample.T2; Sample.T1; Sample.T2]) in H.
    apply NoDup_cons_iff in H. destruct H as [H _].
    apply H. right. now left.
  - split; [reflexivity|].
    change (NoDup [Sample.T1; Sample.T2]).
    repeat constructor; cbn; intuition discriminate.
Qed.

(** C1, amended. For every collection and every to-do list, [processItems]
    appends and does not replace: afterwards [pendingItems] is the old
    [pendingItems] followed by the unfinished elements of the list in their
    order, and [doneItems] the old [doneItems] followed by the finished ones
    in their order, and a second call with the same list appends the same
    elements once more. Repeated calls therefore accumulate duplicates
    whenever a list repeats a todo the collection already holds, as the full
    set returned again does: every pass, and every successful
    [populateItems] or dispatch, raises the number of times a todo is held by
    the number of times it is in the list, and the todos held are without
    duplicate afterwards exactly when they were before, the list has no
    repetition and none of its todos was held. *)
Theorem processItems_accumulates (self : loc) (items : list loc) (w : World) :
  let c := collections w self in
  let w1 := final (processItems self items) w in
  let w2 := final (processItems self items) w1 in
  outcome (processItems self items) w = Resolved tt
  /\ pendingItems (collections w1 self)
     = pendingItems c ++ unfinished_of (todos w) items
  /\ doneItems (collections w1 self)
     = doneItems c ++ finished_of (todos w) items
  /\ pendingItems (collections w2 self)
     = pendingItems c
       ++ unfinished_of (todos w) items ++ unfinished_of (todos w) items
  /\ doneItems (collections w2 self)
     = doneItems c
       ++ finished_of (todos w) items ++ finished_of (todos w) items
  /\ (forall r,
        held (collections w1 self) r
        = (held c r + count_occ Nat.eq_dec items r)%nat)
  /\ (forall r, In r items -> In r (members c) ->
        (2 <= held (collections w1 self) r)%nat)
  /\ (NoDup (members (collections w1 self)) <->
      NoDup (members c) /\ NoDup items
      /\ forall r, In r items -> ~ In r (members c))
  /\ (forall getter user cutOffDate response s,
        ItemGetter.getItems getter (ItemGetter.jwt getter) user cutOffDate
          (todos w)
        = (Resolved response, s) ->
        truthy (errorMessage response) = false ->
        toDos response = Some items ->
        forall r,
          held (collections
                  (final (populateItems self getter user cutOffDate) w) self)
            r
          = (held c r + count_occ Nat.eq_dec items r)%nat)
  /\ (forall item operation response s,
        answer (interfaceHandle c)
          (capability_call c (todos w item) item operation) (todos w)
        = (Resolved response, s) ->
        toDos response = Some items ->
        forall r,
          held (collections
                  (final (callbackHandle self item operation) w) self) r
          = (held c r + count_occ Nat.eq_dec items r)%nat).
Proof.
  cbn zeta.
  assert (Hu : unfinished_of (todos (final (processItems self items) w)) items
               = unfinished_of (todos w) items)
    by apply (filter_finished_ext _ _ negb), processItems_finished.
  assert (Hf : finished_of (todos (final (processItems self items) w)) items
               = finished_of (todos w) items)
    by apply (filter_finished_ext _ _ (fun b => b)), processItems_finished.
  split; [apply processItems_resolves|].
  split; [apply processItems_pending|].
  split; [apply processItems_done|].
  split; [rewrite !processItems_pending, Hu; now rewrite app_assoc|].
  split; [rewrite !processItems_done, Hf; now rewrite app_assoc|].
  split; [intro r; apply held_processItems|].
  split; [|split; [|split]].
  - intros r Hi Hm. rewrite held_processItems. unfold held.
    apply (count_occ_In Nat.eq_dec) in Hi, Hm. lia.
  - assert (Hh : forall r,
              count_occ Nat.eq_dec
                (members (collections (final (processItems self items) w) self))
                r
              = (count_occ Nat.eq_dec (members (collections w self)) r
                 + count_occ Nat.eq_dec items r)%nat)
      by (intro r; apply held_processItems).
    rewrite !(NoDup_count_occ Nat.eq_dec).
    split.
    + intro H. split; [|split].
      * intro r. specialize (H r). rewrite Hh in H. lia.
      * intro r. specialize (H r). rewrite Hh in H. lia.
      * intros r Hi Hm. specialize (H r). rewrite Hh in H.
        apply (count_occ_In Nat.eq_dec) in Hi, Hm. lia.
    + intros (Hm & Hi & Hd) r. rewrite Hh.
      specialize (Hm r). specialize (Hi r).
      destruct (in_dec Nat.eq_dec r items) as [Hin|Hin].
      * apply Hd, (count_occ_not_In Nat.eq_dec) in Hin. lia.
      * apply (count_occ_not_In Nat.eq_dec) in Hin. lia.
  - intros getter user cutOffDate response s H Ht Hl r.
    unfold final. rewrite populateItems_run. cbn zeta.
    rewrite H. cbn [fst snd]. rewrite Ht, Hl. cbn [snd].
    apply (held_processItems self items
             (responded (GetItems (ItemGetter.jwt getter) user cutOffDate)
                s w)).
  - intros item operation response s H Hl r.
    unfold final. rewrite callbackHandle_run. cbn zeta.
    rewrite H. cbn [fst snd settle]. rewrite Hl.
    apply (held_processItems self items
             (responded
                (capability_call (collections w self) (todos w item) item
                   operation) s w)).
Qed.

Lemma processItems_accumulates_witness :
  held (collections (Demo.populated_twice Demo.full_set) Sample.here)
    Sample.T1
  = 2%nat
  /\ (2 <= held
             (collections
                (final (processItems Sample.here [Sample.T1; Sample.T2])
                   (Sample.holding_T1 Demo.full_set))
                Sample.here)
             Sample.T1)%nat.
Proof.
  split.
  - destruct (processItems_accumulates Sample.here [Sample.T1; Sample.T2]
                (final (populateItems Sample.here
                          (FullItemProcess.asItemGetter Demo.full_set) 20 0)
                   (Sample.fresh Demo.full_set)))
      as (_ & _ & _ & _ & _ & _ & _ & _ & Hpop & _).
    unfold Demo.populated_twice.
    rewrite (Hpop (FullItemProcess.asItemGetter Demo.full_set) 20 0
               (success [Sample.T1; Sample.T2])
               (todos (final (populateItems Sample.here
                                (FullItemProcess.asItemGetter Demo.full_set)
                                20 0)
                         (Sample.fresh Demo.full_set)))
               eq_refl eq_refl eq_refl Sample.T1).
    reflexivity.
  - destruct (processItems_accumulates Sample.here [Sample.T1; Sample.T2]
                (Sample.holding_T1 Demo.full_set))
      as (_ & _ & _ & _ & _ & _ & Htwice & _).
    apply Htwice; now left.
Defined.

(** The third scenario of section 8: the collection holds [T1] as pending and
    [createItem] answers [[T1; T2]]; [T1] is then held twice. *)
Example create_duplicates :
  pendingItems
    (collections
       (Sample.holding_T1
          (Sample.collaborator "jwt-20" (Sample.serving [Sample.T1; Sample.T2])))
       Sample.here)
  = [Sample.T1]
  /\ pendingItems
       (collections
          (final (callbackHandle Sample.here Sample.T2 (Create 0))
             (Sample.holding_T1
                (Sample.collaborator "jwt-20"
                   (Sample.serving [Sample.T1; Sample.T2]))))
          Sample.here)
     = [Sample.T1; Sample.T1; Sample.T2].
Proof. vm_compute. split; reflexivity. Qed.

(** ** C10: an empty list is a success *)

(** C10. A response whose [toDos] is the empty list is a success:
    [handleResponse] returns the empty list and does not throw, and
    [processItems] applied to it appends nothing, so that [pendingItems] and
    [doneItems], and the whole world with them, are as before. *)
Theorem empty_toDos_is_success (self : loc) (msg : option string) (w : World) :
  handleResponse {| errorMessage := msg; toDos := Some [] |} w
  = (Resolved [], w)
  /\ processItems self [] w = (Resolved tt, w)
  /\ pendingItems (collections (final (processItems self []) w) self)
     = pendingItems (collections w self)
  /\ doneItems (collections (final (processItems self []) w) self)
     = doneItems (collections w self).
Proof. repeat split. Qed.

(** ** How [populateItems] settles *)

Section PopulateItems.

Variables (self : loc) (getter : ItemGetter.t) (user : Z) (cutOffDate : Date).
Variable w : World.

Let ev := GetItems (ItemGetter.jwt getter) user cutOffDate.
Let call := ItemGetter.getItems getter (ItemGetter.jwt getter) user cutOffDate.

(** A success response: the list goes to [processItems]. *)
Lemma populateItems_success items s :
  call (todos w) = (Resolved (success items), s) ->
  populateItems self getter user cutOffDate w
  = (Resolved {| code := 0; message := None |},
     final (processItems self items) (responded ev s w)).
Proof.
  intro H. rewrite populateItems_run. cbn zeta. fold call. rewrite H.
  reflexivity.
Qed.

(** A failure response with a message that is not empty: nothing is
    processed. *)
Lemma populateItems_failure msg s :
  msg <> "" ->
  call (todos w) = (Resolved (failure msg), s) ->
  populateItems self getter user cutOffDate w
  = (Resolved {| code := 1; message := Some msg |}, responded ev s w).
Proof.
  intros Hmsg H. rewrite populateItems_run. cbn zeta. fold call. rewrite H.
  cbn. destruct (String.eqb_spec msg ""); [contradiction | reflexivity].
Qed.

(** A failure response with the empty message: the test
    [!items.errorMessage] takes it for a success and [processItems] is
    given [null]. *)
Lemma populateItems_empty_message s :
  call (todos w) = (Resolved (failure ""), s) ->
  populateItems self getter user cutOffDate w
  = (Rejected TypeError, responded ev s w).
Proof.
  intro H. rewrite populateItems_run. cbn zeta. fold call. rewrite H.
  reflexivity.
Qed.

End PopulateItems.

(** ** C2: a todo that comes back finished *)

(** C2, as stated, fails at the scenario of section 8: the collection holds
    [T1], unfinished, as its only pending todo; [getItems] answers [[T1]] with
    [T1] finished; after [populateItems] the pending list is not empty. *)
Lemma populateItems_T1_still_pending :
  (pendingItems (collections (Sample.holding_T1 Sample.in_memory) Sample.here)
   = [Sample.T1]
   /\ Todo.finished (todos (Sample.holding_T1 Sample.in_memory) Sample.T1)
      = false
   /\ doneItems (collections (Sample.holding_T1 Sample.in_memory) Sample.here)
      = []
   /\ fst (FullItemProcess.getItems Sample.in_memory "jwt-20" 20 0
             (todos (Sample.holding_T1 Sample.in_memory)))
      = Resolved (success [Sample.T1])
   /\ Todo.finished
        (snd (FullItemProcess.getItems Sample.in_memory "jwt-20" 20 0
                (todos (Sample.holding_T1 Sample.in_memory))) Sample.T1)
      = true)
  /\ ~ (pendingItems
          (collections
             (final (populateItems Sample.here
                       (FullItemProcess.asItemGetter Sample.in_memory) 20 0)
                (Sample.holding_T1 Sample.in_memory))
             Sample.here)
        = []
        /\ doneItems
             (collections
                (final (populateItems Sample.here
                          (FullItemProcess.asItemGetter Sample.in_memory) 20 0)
                   (Sample.holding_T1 Sample.in_memory))
                Sample.here)
           = [Sample.T1]).
Proof.
  vm_compute. split.
  - repeat split.
  - intros [H _]. discriminate H.
Qed.

(** C2, amended. Starting from a collection whose [pendingItems] is [[T1]]
    with [T1] unfinished and whose [doneItems] is empty, if [getItems] answers
    a success whose list is [[T1']] with [T1'] finished, [T1'] being [T1]
    itself or another object for the same todo, then [populateItems] resolves
    with code 0, [pendingItems] is still [[T1]] and [doneItems] is exactly
    [[T1']]. *)
Theorem populateItems_finished_T1
    (self : loc) (getter : ItemGetter.t) (user : Z) (cutOffDate : Date)
    (w : World) (t1 t1' : loc) (s : Store) :
  pendingItems (collections w self) = [t1] ->
  Todo.finished (todos w t1) = false ->
  doneItems (collections w self) = [] ->
  ItemGetter.getItems getter (ItemGetter.jwt getter) user cutOffDate (todos w)
  = (Resolved (success [t1']), s) ->
  Todo.finished (s t1') = true ->
  let w' := final (populateItems self getter user cutOffDate) w in
  outcome (populateItems self getter user cutOffDate) w
  = Resolved {| code := 0; message := None |}
  /\ pendingItems (collections w' self) = [t1]
  /\ doneItems (collections w' self) = [t1'].
Proof.
  intros Hp _ Hd Hcall Hfin. cbn zeta. unfold outcome, final.
  rewrite (populateItems_success _ _ _ _ _ _ _ Hcall). cbn [fst snd].
  split; [reflexivity|].
  rewrite processItems_pending, processItems_done. cbn [responded collections todos].
  rewrite Hp, Hd. unfold unfinished_of, finished_of. cbn [filter].
  rewrite Hfin. split; reflexivity.
Qed.

Lemma populateItems_finished_T1_witness :
  outcome (populateItems Sample.here
             (FullItemProcess.asItemGetter Sample.in_memory) 20 0)
    (Sample.holding_T1 Sample.in_memory)
  = Resolved {| code := 0; message := None |}
  /\ pendingItems
       (collections
          (final (populateItems Sample.here
                    (FullItemProcess.asItemGetter Sample.in_memory) 20 0)
             (Sample.holding_T1 Sample.in_memory))
          Sample.here)
     = [Sample.T1]
  /\ doneItems
       (collections
          (final (populateItems Sample.here
                    (FullItemProcess.asItemGetter Sample.in_memory) 20 0)
             (Sample.holding_T1 Sample.in_memory))
          Sample.here)
     = [Sample.T1].
Proof.
  apply (populateItems_finished_T1 Sample.here
           (FullItemProcess.asItemGetter Sample.in_memory) 20 0
           (Sample.holding_T1 Sample.in_memory) Sample.T1 Sample.T1
           (snd (Sample.finishing Sample.T1
                   (todos (Sample.holding_T1 Sample.in_memory)))));
    reflexivity.
Defined.

(** ** C3: what [populateItems] returns *)

(** C3, at the failing input: a failure response whose error message is the
    empty string. The message is present and the payload absent, yet
    [populateItems] does not return a response with code 1: it hands [null]
    to [processItems] and rejects with the [TypeError] of the loop. The two
    arrays are as before. *)
Theorem populateItems_empty_errorMessage
    (self : loc) (getter : ItemGetter.t) (user : Z) (cutOffDate : Date)
    (w : World) (s : Store) :
  ItemGetter.getItems getter (ItemGetter.jwt getter) user cutOffDate (todos w)
  = (Resolved (failure ""), s) ->
  let w' := final (populateItems self getter user cutOffDate) w in
  outcome (populateItems self getter user cutOffDate) w = Rejected TypeError
  /\ (forall response,
        outcome (populateItems self getter user cutOffDate) w
        <> Resolved response)
  /\ collections w' = collections w.
Proof.
  intro H. cbn zeta. unfold outcome, final.
  rewrite (populateItems_empty_message _ _ _ _ _ _ H). cbn.
  repeat split. intros response E. discriminate E.
Qed.

Lemma populateItems_empty_errorMessage_witness :
  outcome (populateItems Sample.here
             (FullItemProcess.asItemGetter Sample.speechless) 20 0)
    (Sample.holding_T1 Sample.speechless)
  = Rejected TypeError
  /\ (forall response,
        outcome (populateItems Sample.here
                   (FullItemProcess.asItemGetter Sample.speechless) 20 0)
          (Sample.holding_T1 Sample.speechless)
        <> Resolved response)
  /\ collections
       (final (populateItems Sample.here
                 (FullItemProcess.asItemGetter Sample.speechless) 20 0)
          (Sample.holding_T1 Sample.speechless))
     = collections (Sample.holding_T1 Sample.speechless).
Proof.
  apply (populateItems_empty_errorMessage Sample.here
           (FullItemProcess.asItemGetter Sample.speechless) 20 0
           (Sample.holding_T1 Sample.speechless)
           (todos (Sample.holding_T1 Sample.speechless))).
  reflexivity.
Defined.

(** ** C4: one capability call per dispatch *)

(** C4. For every todo and operation dispatched through [callbackHandle],
    exactly one capability call is made, chosen by the operation tag:
    [Complete] calls [completeItem(jwt, userId, todo.id, cutOffDate)],
    [Delete] calls [deleteItem(jwt, userId, todo.id, cutOffDate)], [Create]
    calls [createItem(jwt, userId, todo, cutOffDate)] and [Reassign] calls
    [reassignItem(jwt, userId, todo.id, newId, cutOffDate)], with the
    collection's own [jwt] and [userId]; when the call succeeds, the list it
    returned is passed to [processItems]. *)
Theorem callbackHandle_one_call
    (self : loc) (item : loc) (operation : Operation) (w : World) :
  let c := collections w self in
  let it := todos w item in
  let ev :=
    match operation with
    | Complete cutOffDate =>
        CompleteItem (jwt c) (userId c) (Todo.id it) cutOffDate
    | Delete cutOffDate =>
        DeleteItem (jwt c) (userId c) (Todo.id it) cutOffDate
    | Create cutOffDate =>
        CreateItem (jwt c) (userId c) item cutOffDate
    | Reassign newId cutOffDate =>
        ReassignItem (jwt c) (userId c) (Todo.id it) newId cutOffDate
    end in
  calls (final (callbackHandle self item operation) w) = calls w ++ [ev]
  /\ forall response items s,
       answer (interfaceHandle c) ev (todos w) = (Resolved response, s) ->
       toDos response = Some items ->
       callbackHandle self item operation w
       = processItems self items (responded ev s w).
Proof.
  cbn zeta. split.
  - rewrite callbackHandle_calls. destruct operation; reflexivity.
  - intros response items s Hcall Hitems.
    rewrite callbackHandle_run. cbn zeta.
    replace (capability_call (collections w self) (todos w item) item operation)
      with (match operation with
            | Complete cutOffDate =>
                CompleteItem (jwt (collections w self))
                  (userId (collections w self)) (Todo.id (todos w item))
                  cutOffDate
            | Delete cutOffDate =>
                DeleteItem (jwt (collections w self))
                  (userId (collections w self)) (Todo.id (todos w item))
                  cutOffDate
            | Create cutOffDate =>
                CreateItem (jwt (collections w self))
                  (userId (collections w self)) item cutOffDate
            | Reassign newId cutOffDate =>
                ReassignItem (jwt (collections w self))
                  (userId (collections w self)) (Todo.id (todos w item))
                  newId cutOffDate
            end)
      by (destruct operation; reflexivity).
    rewrite Hcall. cbn. now rewrite Hitems.
Qed.

Lemma callbackHandle_one_call_witness :
  calls (final (callbackHandle Sample.here Sample.T1 (Reassign 30 0))
           (Sample.fresh Sample.archive))
  = [ReassignItem "jwt-20" 20 1 30 0]
  /\ callbackHandle Sample.here Sample.T1 (Reassign 30 0)
       (Sample.fresh Sample.archive)
     = processItems Sample.here [Sample.T2]
         (responded (ReassignItem "jwt-20" 20 1 30 0)
            (snd (Sample.finishing Sample.T2 Sample.store0))
            (Sample.fresh Sample.archive)).
Proof.
  destruct (callbackHandle_one_call Sample.here Sample.T1 (Reassign 30 0)
              (Sample.fresh Sample.archive))
    as [Hcalls Hlist].
  split.
  - exact Hcalls.
  - apply (Hlist (success [Sample.T2])); reflexivity.
Defined.

(** ** C5: a failed dispatch *)

(** C5, as stated, fails in its last clause: [completeItem] answers the
    failure "not found", the dispatch rejects with that message, and so does
    the promise of [performOperation], which awaits the trigger: the caller
    of [performOperation] is shown the failure. *)
Lemma performOperation_surfaces_failure :
  (Todo.handleTrigger (todos (Sample.holding_T1 Sample.not_found) Sample.T1)
   = Some Sample.here
   /\ fst (FullItemProcess.completeItem Sample.not_found "jwt-20" 20 1 0
             (todos (Sample.holding_T1 Sample.not_found)))
      = Resolved (failure "not found")
   /\ outcome (callbackHandle Sample.here Sample.T1 (Complete 0))
        (Sample.holding_T1 Sample.not_found)
      = Rejected (Error "not found"))
  /\ outcome (performOperation Sample.T1 (Complete 0))
       (Sample.holding_T1 Sample.not_found)
     = Rejected (Error "not found")
  /\ ~ (exists v,
          outcome (performOperation Sample.T1 (Complete 0))
            (Sample.holding_T1 Sample.not_found)
          = Resolved v).
Proof.
  vm_compute. repeat split. intros [v H]. discriminate H.
Qed.

(** C5, amended. For every dispatched operation whose capability call
    returns a response with [toDos] absent, the dispatch promise rejects with
    the response's [errorMessage] as its message, and [pendingItems] and
    [doneItems] are exactly as they were before the call, [processItems] not
    being reached; the rejection passes through the [await] of
    [performOperation], whose promise rejects with the same error. *)
Theorem callbackHandle_failure
    (self : loc) (item : loc) (operation : Operation) (w : World)
    (response : ToDoResponse) (s : Store) :
  let c := collections w self in
  let ev := capability_call c (todos w item) item operation in
  answer (interfaceHandle c) ev (todos w) = (Resolved response, s) ->
  toDos response = None ->
  let e := Error (js_to_string (errorMessage response)) in
  callbackHandle self item operation w = (Rejected e, responded ev s w)
  /\ (forall msg, errorMessage response = Some msg -> e = Error msg)
  /\ (forall c',
        pendingItems
          (collections (final (callbackHandle self item operation) w) c')
        = pendingItems (collections w c')
        /\ doneItems
             (collections (final (callbackHandle self item operation) w) c')
           = doneItems (collections w c'))
  /\ (Todo.handleTrigger (todos w item) = Some self ->
      performOperation item operation w = (Rejected e, responded ev s w)).
Proof.
  cbn zeta. intros Hcall Hnone.
  assert (Hrun : callbackHandle self item operation w
                 = (Rejected (Error (js_to_string (errorMessage response))),
                    responded
                      (capability_call (collections w self) (todos w item)
                         item operation) s w)).
  { rewrite callbackHandle_run. cbn zeta. rewrite Hcall. cbn.
    now rewrite Hnone. }
  repeat split.
  - exact Hrun.
  - intros msg Hmsg. now rewrite Hmsg.
  - unfold final. now rewrite Hrun.
  - unfold final. now rewrite Hrun.
  - intro Hbound. unfold performOperation, bind, read_todo.
    rewrite Hbound. exact Hrun.
Qed.

Lemma callbackHandle_failure_witness :
  callbackHandle Sample.here Sample.T1 (Complete 0)
    (Sample.holding_T1 Sample.not_found)
  = (Rejected (Error "not found"),
     responded (CompleteItem "jwt-20" 20 1 0)
       (todos (Sample.holding_T1 Sample.not_found))
       (Sample.holding_T1 Sample.not_found))
  /\ pendingItems
       (collections
          (final (callbackHandle Sample.here Sample.T1 (Complete 0))
             (Sample.holding_T1 Sample.not_found))
          Sample.here)
     = [Sample.T1]
  /\ performOperation Sample.T1 (Complete 0)
       (Sample.holding_T1 Sample.not_found)
     = (Rejected (Error "not found"),
        responded (CompleteItem "jwt-20" 20 1 0)
          (todos (Sample.holding_T1 Sample.not_found))
          (Sample.holding_T1 Sample.not_found)).
Proof.
  destruct (callbackHandle_failure Sample.here Sample.T1 (Complete 0)
              (Sample.holding_T1 Sample.not_found)
              (failure "not found")
              (todos (Sample.holding_T1 Sample.not_found)) eq_refl eq_refl)
    as (Hrun & _ & Hlists & Hperform).
  split; [exact Hrun|]. split.
  - destruct (Hlists Sample.here) as [Hp _]. rewrite Hp. reflexivity.
  - apply Hperform. reflexivity.
Defined.

(** ** C6: [performOperation] *)

(** C6. For every todo and every operation: if the todo's [handleTrigger] is
    [null], [performOperation] resolves without throwing and changes nothing,
    no collection and no todo, and makes no capability call; if a trigger is
    bound, [performOperation] is one invocation of that trigger on the todo
    itself and the operation, which makes the one capability call of that
    dispatch. *)
Theorem performOperation_trigger
    (this : loc) (operation : Operation) (w : World) :
  (Todo.handleTrigger (todos w this) = None ->
   performOperation this operation w = (Resolved tt, w))
  /\ (forall trigger,
        Todo.handleTrigger (todos w this) = Some trigger ->
        performOperation this operation w
        = callbackHandle trigger this operation w
        /\ calls (final (performOperation this operation) w)
           = calls w
             ++ [capability_call (collections w trigger) (todos w this) this
                   operation]).
Proof.
  split.
  - intro H. unfold performOperation, bind, read_todo. now rewrite H.
  - intros trigger H.
    assert (E : performOperation this operation w
                = callbackHandle trigger this operation w)
      by (unfold performOperation, bind, read_todo; now rewrite H).
    split; [exact E|].
    unfold final. rewrite E. apply callbackHandle_calls.
Qed.

Lemma performOperation_trigger_witness :
  performOperation Sample.T2 (Delete 0) (Sample.holding_T1 Sample.archive)
  = (Resolved tt, Sample.holding_T1 Sample.archive)
  /\ performOperation Sample.T1 (Delete 0) (Sample.holding_T1 Sample.archive)
     = callbackHandle Sample.here Sample.T1 (Delete 0)
         (Sample.holding_T1 Sample.archive)
  /\ calls (final (performOperation Sample.T1 (Delete 0))
              (Sample.holding_T1 Sample.archive))
     = [DeleteItem "jwt-20" 20 1 0].
Proof.
  split.
  - apply (performOperation_trigger Sample.T2 (Delete 0)
             (Sample.holding_T1 Sample.archive)).
    reflexivity.
  - apply (performOperation_trigger Sample.T1 (Delete 0)
             (Sample.holding_T1 Sample.archive)).
    reflexivity.
Defined.

(** ** C7: every held todo is bound to the collection's dispatcher *)

Lemma members_processItems self items w r :
  In r (members (collections (final (processItems self items) w) self)) ->
  In r (members (collections w self)) \/ In r items.
Proof.
  unfold members. rewrite processItems_pending, processItems_done.
  unfold unfinished_of, finished_of.
  rewrite !in_app_iff, !filter_In. tauto.
Qed.

Lemma processItems_all_bound self items w :
  all_bound self w -> all_bound self (final (processItems self items) w).
Proof.
  intros H r Hr.
  destruct (members_processItems _ _ _ _ Hr) as [Hold|Hnew].
  - apply processItems_keeps_bound, H, Hold.
  - now apply processItems_binds.
Qed.

Lemma responded_all_bound self w ev (f : Remote) :
  all_bound self w -> keeps_bindings self w f ->
  all_bound self (responded ev (snd (f (todos w))) w).
Proof.
  intros H Hf r Hr. cbn in *. rewrite Hf; auto.
Qed.

Lemma settle_all_bound self r w :
  all_bound self w -> all_bound self (final (settle self r) w).
Proof.
  intro H. unfold final, settle.
  destruct r as [response|e]; [|exact H].
  destruct (toDos response) as [items|]; [|exact H].
  now apply processItems_all_bound.
Qed.






(** ** C8: the partition by [finished] *)

(** C8, as stated, fails once a list already holds a processed todo: [T1]
    was processed while unfinished, the collaborator then marks it finished
    and returns it again; after that pass [T1] is in the processed list and
    in both [pendingItems] and [doneItems]. *)
Lemma processItems_in_both_lists :
  (In Sample.T1 [Sample.T1]
   /\ Todo.finished
        (todos
           (Sample.got
              (snd (Sample.finishing Sample.T1
                      (todos (Sample.holding_T1 Sample.in_memory))))
              (Sample.holding_T1 Sample.in_memory))
           Sample.T1)
      = true
   /\ In Sample.T1
        (pendingItems
           (collections
              (final (processItems Sample.here [Sample.T1])
                 (Sample.got
                    (snd (Sample.finishing Sample.T1
                            (todos (Sample.holding_T1 Sample.in_memory))))
                    (Sample.holding_T1 Sample.in_memory)))
              Sample.here))
   /\ In Sample.T1
        (doneItems
           (collections
              (final (processItems Sample.here [Sample.T1])
                 (Sample.got
                    (snd (Sample.finishing Sample.T1
                            (todos (Sample.holding_T1 Sample.in_memory))))
                    (Sample.holding_T1 Sample.in_memory)))
              Sample.here)))
  /\ ~ (forall r,
          ~ (In r
               (pendingItems
                  (collections
                     (final (processItems Sample.here [Sample.T1])
                        (Sample.got
                           (snd (Sample.finishing Sample.T1
                                   (todos (Sample.holding_T1 Sample.in_memory))))
                           (Sample.holding_T1 Sample.in_memory)))
                     Sample.here))
             /\ In r
                  (doneItems
                     (collections
                        (final (processItems Sample.here [Sample.T1])
                           (Sample.got
                              (snd (Sample.finishing Sample.T1
                                      (todos
                                         (Sample.holding_T1 Sample.in_memory))))
                              (Sample.holding_T1 Sample.in_memory)))
                        Sample.here)))).
Proof.
  split.
  - vm_compute. repeat split; now left.
  - intro H. apply (H Sample.T1). vm_compute. split; now left.
Qed.

(** The same pass when the collaborator returns a new object, [T3], for the
    todo number 1: the identifier 1 is then pending and done at once. *)
Example reissued_in_both_lists :
  map (fun r =>
         Todo.id
           (snd (Sample.reissuing Sample.T1 Sample.T3
                   (todos (Sample.holding_T1 Sample.in_memory))) r))
    (pendingItems
       (collections
          (final (processItems Sample.here [Sample.T3])
             (Sample.got
                (snd (Sample.reissuing Sample.T1 Sample.T3
                        (todos (Sample.holding_T1 Sample.in_memory))))
                (Sample.holding_T1 Sample.in_memory)))
          Sample.here))
  = [1]
  /\ map (fun r =>
            Todo.id
              (snd (Sample.reissuing Sample.T1 Sample.T3
                      (todos (Sample.holding_T1 Sample.in_memory))) r))
       (doneItems
          (collections
             (final (processItems Sample.here [Sample.T3])
                (Sample.got
                   (snd (Sample.reissuing Sample.T1 Sample.T3
                           (todos (Sample.holding_T1 Sample.in_memory))))
                   (Sample.holding_T1 Sample.in_memory)))
             Sample.here))
     = [1].
Proof. vm_compute. split; reflexivity. Qed.

(** C8, amended. After any [processItems] pass, every todo in the processed
    list is contained in the list its [finished] flag selects at the time of
    partitioning, and in the other list only if it was there before the
    pass. So when neither list held a processed todo before the pass, every
    processed todo is in exactly one of [pendingItems]/[doneItems], and if
    moreover no todo was in both lists before, none is afterwards. *)
Theorem processItems_partition (self : loc) (items : list loc) (w : World) :
  let w' := final (processItems self items) w in
  let pending := pendingItems (collections w self) in
  let done := doneItems (collections w self) in
  let pending' := pendingItems (collections w' self) in
  let done' := doneItems (collections w' self) in
  (forall r, In r items ->
     if Todo.finished (todos w r)
     then In r done' /\ (In r pending' -> In r pending)
     else In r pending' /\ (In r done' -> In r done))
  /\ ((forall r, In r items -> ~ In r pending /\ ~ In r done) ->
      (forall r, In r items ->
         if Todo.finished (todos w r)
         then In r done' /\ ~ In r pending'
         else In r pending' /\ ~ In r done')
      /\ ((forall r, ~ (In r pending /\ In r done)) ->
          forall r, ~ (In r pending' /\ In r done'))).
Proof.
  cbn zeta. rewrite processItems_pending, processItems_done.
  unfold unfinished_of, finished_of.
  assert (Hall : forall r, In r items ->
            if Todo.finished (todos w r)
            then In r (doneItems (collections w self)
                       ++ filter (fun r0 => Todo.finished (todos w r0)) items)
                 /\ (In r (pendingItems (collections w self)
                           ++ filter (fun r0 => negb (Todo.finished (todos w r0)))
                                items)
                     -> In r (pendingItems (collections w self)))
            else In r (pendingItems (collections w self)
                       ++ filter (fun r0 => negb (Todo.finished (todos w r0)))
                            items)
                 /\ (In r (doneItems (collections w self)
                           ++ filter (fun r0 => Todo.finished (todos w r0)) items)
                     -> In r (doneItems (collections w self)))).
  { intros r Hr. destruct (Todo.finished (todos w r)) eqn:E;
      rewrite !in_app_iff, !filter_In, E; cbn; intuition congruence. }
  split; [exact Hall|].
  intro Hfresh. split.
  - intros r Hr. specialize (Hall r Hr). destruct (Hfresh r Hr) as [Hp Hd].
    destruct (Todo.finished (todos w r)); tauto.
  - intros Hdisj r [Hp Hd].
    rewrite in_app_iff, filter_In in Hp, Hd.
    destruct Hp as [Hp|[Hi Hp]], Hd as [Hd|[Hi' Hd]].
    + apply (Hdisj r). tauto.
    + destruct (Hfresh r Hi') as [Hn _]. exact (Hn Hp).
    + destruct (Hfresh r Hi) as [_ Hn]. exact (Hn Hd).
    + destruct (Todo.finished (todos w r)); discriminate.
Qed.

Lemma processItems_partition_witness :
  (In Sample.T1
     (pendingItems
        (collections
           (final (processItems Sample.here [Sample.T1; Sample.T2])
              (Sample.got (snd (Sample.finishing Sample.T2 Sample.store0))
                 (Sample.fresh Sample.archive)))
           Sample.here))
   /\ ~ In Sample.T1
          (doneItems
             (collections
                (final (processItems Sample.here [Sample.T1; Sample.T2])
                   (Sample.got (snd (Sample.finishing Sample.T2 Sample.store0))
                      (Sample.fresh Sample.archive)))
                Sample.here)))
  /\ (In Sample.T2
        (doneItems
           (collections
              (final (processItems Sample.here [Sample.T1; Sample.T2])
                 (Sample.got (snd (Sample.finishing Sample.T2 Sample.store0))
                    (Sample.fresh Sample.archive)))
              Sample.here))
      /\ ~ In Sample.T2
             (pendingItems
                (collections
                   (final (processItems Sample.here [Sample.T1; Sample.T2])
                      (Sample.got
                         (snd (Sample.finishing Sample.T2 Sample.store0))
                         (Sample.fresh Sample.archive)))
                   Sample.here))).
Proof.
  destruct (processItems_partition Sample.here [Sample.T1; Sample.T2]
              (Sample.got (snd (Sample.finishing Sample.T2 Sample.store0))
                 (Sample.fresh Sample.archive)))
    as [_ Hfresh].
  destruct Hfresh as [Hone _].
  { intros r _. split; intros []. }
  split.
  - apply (Hone Sample.T1). now left.
  - apply (Hone Sample.T2). right. now left.
Defined.

(** ** C9: [populateItems] does not use the collection's credentials *)

(** C9. [populateItems] authenticates with the getter's own [jwt] and uses
    its [userId] argument, never the collection's [jwt] and [userId]: for
    two collections that hold the same [pendingItems] and [doneItems],
    whatever their [jwt] and [userId], [populateItems] with the same getter,
    [userId] argument and [cutOffDate] makes the same capability call,
    [getItems(getter.jwt, userId, cutOffDate)], settles the same way, and
    ends with the same [pendingItems] and [doneItems]; the todos are the
    same up to the dispatcher bound in them, and the same altogether when
    the two are one collection object with other credentials. *)
Theorem populateItems_ignores_credentials
    (self1 self2 : loc) (w1 w2 : World)
    (getter : ItemGetter.t) (user : Z) (cutOffDate : Date) :
  todos w1 = todos w2 ->
  calls w1 = calls w2 ->
  pendingItems (collections w1 self1) = pendingItems (collections w2 self2) ->
  doneItems (collections w1 self1) = doneItems (collections w2 self2) ->
  let run1 := populateItems self1 getter user cutOffDate in
  let run2 := populateItems self2 getter user cutOffDate in
  calls (final run1 w1)
  = calls w1 ++ [GetItems (ItemGetter.jwt getter) user cutOffDate]
  /\ calls (final run2 w2) = calls (final run1 w1)
  /\ outcome run2 w2 = outcome run1 w1
  /\ pendingItems (collections (final run2 w2) self2)
     = pendingItems (collections (final run1 w1) self1)
  /\ doneItems (collections (final run2 w2) self2)
     = doneItems (collections (final run1 w1) self1)
  /\ (forall r,
        Todo.set_handleTrigger None (todos (final run2 w2) r)
        = Todo.set_handleTrigger None (todos (final run1 w1) r))
  /\ (self1 = self2 ->
      forall r, todos (final run2 w2) r = todos (final run1 w1) r).
Proof.
  intros Ht Hc Hp Hd. cbn zeta.
  unfold final, outcome. rewrite !populateItems_run. cbn zeta.
  rewrite <- Ht.
  destruct (ItemGetter.getItems getter (ItemGetter.jwt getter) user cutOffDate
              (todos w1)) as [[items|e] s]; cbn [fst snd].
  2:{ cbn. rewrite Hc, Hp, Hd. repeat split. }
  destruct (truthy (errorMessage items)).
  { cbn. rewrite Hc, Hp, Hd. repeat split. }
  destruct (toDos items) as [l|].
  2:{ cbn. rewrite Hc, Hp, Hd. repeat split. }
  cbn [fst snd].
  rewrite !processItems_calls, !processItems_pending, !processItems_done.
  cbn [responded calls collections todos]. rewrite Hc, Hp, Hd.
  repeat split.
  - intro r. rewrite !processItems_todos. cbn [responded todos].
    destruct (existsb (Nat.eqb r) l); reflexivity.
  - intros <- r. rewrite !processItems_todos. reflexivity.
Qed.

Lemma populateItems_ignores_credentials_witness :
  (jwt (collections (Sample.two_users Sample.archive) Sample.here) = "jwt-20"
   /\ jwt (collections (Sample.two_users Sample.archive) Sample.there)
      = "jwt-21"
   /\ userId (collections (Sample.two_users Sample.archive) Sample.here) = 20
   /\ userId (collections (Sample.two_users Sample.archive) Sample.there) = 21)
  /\ calls
       (final (populateItems Sample.here
                 (FullItemProcess.asItemGetter Sample.archive) 20 0)
          (Sample.two_users Sample.archive))
     = [GetItems "jwt-20" 20 0]
  /\ calls
       (final (populateItems Sample.there
                 (FullItemProcess.asItemGetter Sample.archive) 20 0)
          (Sample.two_users Sample.archive))
     = calls
         (final (populateItems Sample.here
                   (FullItemProcess.asItemGetter Sample.archive) 20 0)
            (Sample.two_users Sample.archive))
  /\ outcome (populateItems Sample.there
                (FullItemProcess.asItemGetter Sample.archive) 20 0)
       (Sample.two_users Sample.archive)
     = outcome (populateItems Sample.here
                  (FullItemProcess.asItemGetter Sample.archive) 20 0)
         (Sample.two_users Sample.archive)
  /\ doneItems
       (collections
          (final (populateItems Sample.there
                    (FullItemProcess.asItemGetter Sample.archive) 20 0)
             (Sample.two_users Sample.archive))
          Sample.there)
     = doneItems
         (collections
            (final (populateItems Sample.here
                      (FullItemProcess.asItemGetter Sample.archive) 20 0)
               (Sample.two_users Sample.archive))
            Sample.here).
Proof.
  destruct (populateItems_ignores_credentials Sample.here Sample.there
              (Sample.two_users Sample.archive)
              (Sample.two_users Sample.archive)
              (FullItemProcess.asItemGetter Sample.archive) 20 0
              eq_refl eq_refl eq_refl eq_refl)
    as (Hcall & Hcalls & Hout & _ & Hdone & _).
  split; [repeat split|].
  split; [exact Hcall|].
  split; [exact Hcalls|].
  split; [exact Hout | exact Hdone].
Defined.

(** * Further properties of the collection *)

(** ** What an operation leaves in place *)

Lemma extended_refl c : extended c c.
Proof.
  exists [], []. unfold extended_by. rewrite !app_nil_r. repeat split.
Qed.

Lemma extended_trans c1 c2 c3 :
  extended c1 c2 -> extended c2 c3 -> extended c1 c3.
Proof.
  intros (p & d & Hu & Hj & Hi & Hp & Hd) (p' & d' & Hu' & Hj' & Hi' & Hp' & Hd').
  exists (p ++ p'), (d ++ d'). unfold extended_by.
  rewrite Hp', Hd', Hp, Hd, !app_assoc. repeat split; congruence.
Qed.

(** A pass extends the collection that runs it by the two halves of the
    processed list and leaves every other collection alone. *)
Lemma processItems_extended_by self items w :
  extended_by (unfinished_of (todos w) items) (finished_of (todos w) items)
    (collections w self)
    (collections (final (processItems self items) w) self).
Proof.
  destruct (processItems_frame self items w) as (Hu & Hj & Hi & _).
  unfold extended_by. rewrite processItems_pending, processItems_done.
  repeat split; assumption.
Qed.

Lemma processItems_extended self items w c :
  extended (collections w c)
    (collections (final (processItems self items) w) c).
Proof.
  destruct (Nat.eq_dec c self) as [->|Hne].
  - eexists _, _. apply processItems_extended_by.
  - destruct (processItems_frame self items w) as (_ & _ & _ & Hc).
    rewrite (Hc c Hne). apply extended_refl.
Qed.

Lemma settle_extended self r w c :
  extended (collections w c) (collections (final (settle self r) w) c).
Proof.
  unfold final, settle.
  destruct r as [response|e]; [|apply extended_refl].
  destruct (toDos response) as [items|]; [|apply extended_refl].
  apply processItems_extended.
Qed.

Lemma callbackHandle_extended self item operation w c :
  extended (collections w c)
    (collections (final (callbackHandle self item operation) w) c).
Proof.
  unfold final. rewrite callbackHandle_run. cbn zeta.
  match goal with
  | |- extended _ (collections (snd (settle ?s ?r ?w1)) c) =>
      change (collections w c) with (collections w1 c);
      apply (settle_extended s r w1 c)
  end.
Qed.

Lemma populateItems_extended self getter user cutOffDate w c :
  extended (collections w c)
    (collections (final (populateItems self getter user cutOffDate) w) c).
Proof.
  unfold final. rewrite populateItems_run. cbn zeta.
  destruct (fst _) as [items|e]; [|apply extended_refl].
  destruct (truthy _); [apply extended_refl|].
  destruct (toDos items) as [l|]; [|apply extended_refl].
  cbn [snd].
  match goal with
  | |- extended _ (collections (final (processItems ?s ?l) ?w1) c) =>
      change (collections w c) with (collections w1 c);
      apply (processItems_extended s l w1 c)
  end.
Qed.

Lemma performOperation_extended this operation w c :
  extended (collections w c)
    (collections (final (performOperation this operation) w) c).
Proof.
  unfold final, performOperation, bind, read_todo.
  destruct (Todo.handleTrigger (todos w this)) as [trigger|].
  - apply callbackHandle_extended.
  - apply extended_refl.
Qed.

Lemma extended_members c c' r :
  extended c c' -> In r (members c) -> In r (members c').
Proof.
  intros (p & d & _ & _ & _ & Hp & Hd). unfold members.
  rewrite Hp, Hd, !in_app_iff. tauto.
Qed.

(** No operation removes a todo or changes the credentials. Whatever the
    operation, [populateItems], a dispatch or [performOperation], and however
    it settles, every collection keeps its [userId], [jwt] and
    [interfaceHandle], and its [pendingItems] and [doneItems] are the arrays
    it had, possibly with todos appended. In particular a todo that a
    collection holds is still held after [performOperation] was given
    [Delete] for it, whatever the collaborator answered. *)
Theorem operations_only_append (w : World) (c : loc) :
  (forall self getter user cutOffDate,
     extended (collections w c)
       (collections (final (populateItems self getter user cutOffDate) w) c))
  /\ (forall self item operation,
        extended (collections w c)
          (collections (final (callbackHandle self item operation) w) c))
  /\ (forall this operation,
        extended (collections w c)
          (collections (final (performOperation this operation) w) c))
  /\ (forall this cutOffDate,
        In this (members (collections w c)) ->
        In this
          (members
             (collections
                (final (performOperation this (Delete cutOffDate)) w) c))).
Proof.
  split; [|split; [|split]].
  - intros. apply populateItems_extended.
  - intros. apply callbackHandle_extended.
  - intros. apply performOperation_extended.
  - intros this cutOffDate Hin.
    apply (extended_members (collections w c)); [|exact Hin].
    apply performOperation_extended.
Qed.

Lemma operations_only_append_witness :
  In Sample.T1 (members (collections (Sample.holding_T1 Demo.emptied) Sample.here))
  /\ outcome (performOperation Sample.T1 (Delete 0))
       (Sample.holding_T1 Demo.emptied)
     = Resolved tt
  /\ In Sample.T1
       (members
          (collections
             (final (performOperation Sample.T1 (Delete 0))
                (Sample.holding_T1 Demo.emptied))
             Sample.here)).
Proof.
  split; [now left|]. split; [reflexivity|].
  apply (operations_only_append (Sample.holding_T1 Demo.emptied) Sample.here).
  now left.
Defined.

(** ** What a pass does to the todos and to the processed list *)

(** A pass of [processItems] writes triggers and nothing else: it makes no
    capability call, the data of every todo ([id], [name], the dates, the
    users, [description], [finished]) is as before, a todo outside the
    processed list is not written at all, and a processed todo differs from
    what it was in its trigger only. *)
Theorem processItems_writes_triggers_only
    (self : loc) (items : list loc) (w : World) :
  let w' := final (processItems self items) w in
  calls w' = calls w
  /\ (forall r, data_of (todos w' r) = data_of (todos w r))
  /\ (forall r, ~ In r items -> todos w' r = todos w r)
  /\ (forall r, In r items ->
        todos w' r = Todo.set_handleTrigger (Some self) (todos w r)).
Proof.
  cbn zeta. split; [apply processItems_calls|]. split; [|split].
  - intro r. rewrite processItems_todos.
    destruct (existsb (Nat.eqb r) items); reflexivity.
  - intros r Hr. now apply processItems_other.
  - intros r Hr. rewrite processItems_todos.
    apply existsb_eqb_In in Hr. now rewrite Hr.
Qed.

Lemma processItems_writes_triggers_only_witness :
  todos (final (processItems Sample.here [Sample.T1])
           (Sample.fresh Demo.backend)) Sample.T2
  = Sample.entry 2
  /\ todos (final (processItems Sample.here [Sample.T1])
              (Sample.fresh Demo.backend)) Sample.T1
     = Todo.set_handleTrigger (Some Sample.here) (Sample.entry 1).
Proof.
  destruct (processItems_writes_triggers_only Sample.here [Sample.T1]
              (Sample.fresh Demo.backend))
    as (_ & _ & Hout & Hin).
  split.
  - apply Hout. intros [E|[]]. discriminate E.
  - apply Hin. now left.
Defined.

(** A pass drops nothing and invents nothing: what it appends to
    [pendingItems] and what it appends to [doneItems] are, together, a
    permutation of the processed list, repetitions included, so the number of
    todos held grows by the length of that list. *)
Theorem processItems_appends_a_permutation
    (self : loc) (items : list loc) (w : World) :
  let c := collections w self in
  let c' := collections (final (processItems self items) w) self in
  exists p d,
    pendingItems c' = pendingItems c ++ p
    /\ doneItems c' = doneItems c ++ d
    /\ Permutation (p ++ d) items
    /\ List.length (members c') = (List.length (members c) + List.length items)%nat.
Proof.
  cbn zeta.
  exists (unfinished_of (todos w) items), (finished_of (todos w) items).
  split; [apply processItems_pending|].
  split; [apply processItems_done|].
  split; [apply halves_permutation|].
  unfold members. rewrite processItems_pending, processItems_done.
  rewrite <- (Permutation_length (halves_permutation (todos w) items)).
  rewrite !length_app.
  generalize (List.length (pendingItems (collections w self))),
    (List.length (doneItems (collections w self))),
    (List.length (unfinished_of (todos w) items)),
    (List.length (finished_of (todos w) items)).
  intros a b c d.
  rewrite <- !Nat.add_assoc. f_equal.
  rewrite Nat.add_assoc, (Nat.add_comm c b), <- Nat.add_assoc. reflexivity.
Qed.

(** ** Rejections of the collaborator *)

(** [populateItems] has no handler for a rejection: when the promise of
    [getItems] rejects, [populateItems] rejects with the same reason instead
    of returning an [EmptyResponse]; the call was made and every collection
    is as it was. *)
Theorem populateItems_rethrows
    (self : loc) (getter : ItemGetter.t) (user : Z) (cutOffDate : Date)
    (w : World) (e : Exn) (s : Store) :
  ItemGetter.getItems getter (ItemGetter.jwt getter) user cutOffDate (todos w)
  = (Rejected e, s) ->
  populateItems self getter user cutOffDate w
  = (Rejected e,
     responded (GetItems (ItemGetter.jwt getter) user cutOffDate) s w)
  /\ collections (final (populateItems self getter user cutOffDate) w)
     = collections w.
Proof.
  intro H.
  assert (E : populateItems self getter user cutOffDate w
              = (Rejected e,
                 responded (GetItems (ItemGetter.jwt getter) user cutOffDate)
                   s w)).
  { rewrite populateItems_run. cbn zeta. rewrite H. reflexivity. }
  split; [exact E|]. unfold final. rewrite E. reflexivity.
Qed.

Lemma populateItems_rethrows_witness :
  populateItems Sample.here (FullItemProcess.asItemGetter Demo.offline) 20 0
    (Sample.holding_T1 Demo.offline)
  = (Rejected (Error "network down"),
     responded (GetItems "jwt-20" 20 0)
       (todos (Sample.holding_T1 Demo.offline))
       (Sample.holding_T1 Demo.offline))
  /\ collections
       (final (populateItems Sample.here
                 (FullItemProcess.asItemGetter Demo.offline) 20 0)
          (Sample.holding_T1 Demo.offline))
     = collections (Sample.holding_T1 Demo.offline).
Proof.
  apply (populateItems_rethrows Sample.here
           (FullItemProcess.asItemGetter Demo.offline) 20 0
           (Sample.holding_T1 Demo.offline) (Error "network down")
           (todos (Sample.holding_T1 Demo.offline))).
  reflexivity.
Defined.

(** A dispatch whose capability call rejects, rejects with the same reason:
    so does [performOperation] on a todo bound to that collection. The call
    was made, nothing was processed and every collection is as it was. *)
Theorem dispatch_rethrows
    (self : loc) (item : loc) (operation : Operation) (w : World)
    (e : Exn) (s : Store) :
  let c := collections w self in
  let ev := capability_call c (todos w item) item operation in
  answer (interfaceHandle c) ev (todos w) = (Rejected e, s) ->
  callbackHandle self item operation w = (Rejected e, responded ev s w)
  /\ (Todo.handleTrigger (todos w item) = Some self ->
      performOperation item operation w = (Rejected e, responded ev s w))
  /\ collections (final (callbackHandle self item operation) w)
     = collections w.
Proof.
  cbn zeta. intro H.
  assert (E : callbackHandle self item operation w
              = (Rejected e,
                 responded
                   (capability_call (collections w self) (todos w item) item
                      operation) s w)).
  { rewrite callbackHandle_run. cbn zeta. rewrite H. reflexivity. }
  split; [exact E|]. split.
  - intro Hb. unfold performOperation, bind, read_todo. rewrite Hb. exact E.
  - unfold final. rewrite E. reflexivity.
Qed.

Lemma dispatch_rethrows_witness :
  callbackHandle Sample.here Sample.T1 (Reassign 30 0)
    (Sample.holding_T1 Demo.offline)
  = (Rejected (Error "network down"),
     responded (ReassignItem "jwt-20" 20 1 30 0)
       (todos (Sample.holding_T1 Demo.offline))
       (Sample.holding_T1 Demo.offline))
  /\ performOperation Sample.T1 (Reassign 30 0)
       (Sample.holding_T1 Demo.offline)
     = (Rejected (Error "network down"),
        responded (ReassignItem "jwt-20" 20 1 30 0)
          (todos (Sample.holding_T1 Demo.offline))
          (Sample.holding_T1 Demo.offline)).
Proof.
  destruct (dispatch_rethrows Sample.here Sample.T1 (Reassign 30 0)
              (Sample.holding_T1 Demo.offline) (Error "network down")
              (todos (Sample.holding_T1 Demo.offline)) eq_refl)
    as (Hrun & Hperform & _).
  split; [exact Hrun|]. apply Hperform. reflexivity.
Defined.

(** ** How [populateItems] and a dispatch settle on a response *)

(** [populateItems] decides on the error message alone: a response whose
    [errorMessage] is a string that is not empty is reported with code 1 and
    that message, whether it carries a list or not; nothing is processed and
    every collection is as it was. *)
Theorem populateItems_reports_failure
    (self : loc) (getter : ItemGetter.t) (user : Z) (cutOffDate : Date)
    (w : World) (response : ToDoResponse) (s : Store) :
  ItemGetter.getItems getter (ItemGetter.jwt getter) user cutOffDate (todos w)
  = (Resolved response, s) ->
  truthy (errorMessage response) = true ->
  populateItems self getter user cutOffDate w
  = (Resolved {| code := 1; message := errorMessage response |},
     responded (GetItems (ItemGetter.jwt getter) user cutOffDate) s w)
  /\ collections (final (populateItems self getter user cutOffDate) w)
     = collections w.
Proof.
  intros H Ht.
  assert (E : populateItems self getter user cutOffDate w
              = (Resolved {| code := 1; message := errorMessage response |},
                 responded (GetItems (ItemGetter.jwt getter) user cutOffDate)
                   s w)).
  { rewrite populateItems_run. cbn zeta. rewrite H. cbn [fst snd].
    now rewrite Ht. }
  split; [exact E|]. unfold final. rewrite E. reflexivity.
Qed.

Lemma populateItems_reports_failure_witness :
  populateItems Sample.here (FullItemProcess.asItemGetter Sample.not_found)
    20 0 (Sample.holding_T1 Sample.not_found)
  = (Resolved {| code := 1; message := Some "not found" |},
     responded (GetItems "jwt-20" 20 0)
       (todos (Sample.holding_T1 Sample.not_found))
       (Sample.holding_T1 Sample.not_found))
  /\ collections
       (final (populateItems Sample.here
                 (FullItemProcess.asItemGetter Sample.not_found) 20 0)
          (Sample.holding_T1 Sample.not_found))
     = collections (Sample.holding_T1 Sample.not_found).
Proof.
  apply (populateItems_reports_failure Sample.here
           (FullItemProcess.asItemGetter Sample.not_found) 20 0
           (Sample.holding_T1 Sample.not_found) (failure "not found")
           (todos (Sample.holding_T1 Sample.not_found)));
    reflexivity.
Defined.

Lemma callbackHandle_other_collections self item operation w c :
  c <> self ->
  collections (final (callbackHandle self item operation) w) c
  = collections w c.
Proof.
  intro Hne. unfold final. rewrite callbackHandle_run. cbn zeta.
  destruct (answer _ _ _) as [[response|e] s]; cbn; [|reflexivity].
  destruct (toDos response) as [items|]; [|reflexivity].
  destruct (processItems_frame self items
              (responded
                 (capability_call (collections w self) (todos w item) item
                    operation) s w)) as (_ & _ & _ & Hc).
  apply (Hc c Hne).
Qed.

(** A dispatch decides on the list alone: when the capability call answers
    a response that carries a list, the dispatch resolves, whatever the
    response's error message, and the collection is extended by the two
    halves of that list, sorted after the flags the collaborator left; every
    other collection is as it was. *)
Theorem dispatch_appends_the_answer
    (self : loc) (item : loc) (operation : Operation) (w : World)
    (response : ToDoResponse) (items : list loc) (s : Store) :
  let c := collections w self in
  let ev := capability_call c (todos w item) item operation in
  answer (interfaceHandle c) ev (todos w) = (Resolved response, s) ->
  toDos response = Some items ->
  let w' := final (callbackHandle self item operation) w in
  outcome (callbackHandle self item operation) w = Resolved tt
  /\ extended_by (unfinished_of s items) (finished_of s items)
       (collections w self) (collections w' self)
  /\ forall c', c' <> self -> collections w' c' = collections w c'.
Proof.
  cbn zeta. intros H Hl.
  split; [|split].
  - unfold outcome. rewrite callbackHandle_run. cbn zeta. rewrite H. cbn.
    rewrite Hl. apply processItems_resolves.
  - unfold final. rewrite callbackHandle_run. cbn zeta. rewrite H. cbn.
    rewrite Hl.
    apply (processItems_extended_by self items
             (responded
                (capability_call (collections w self) (todos w item) item
                   operation) s w)).
  - intros c' Hne. now apply callbackHandle_other_collections.
Qed.

Lemma dispatch_appends_the_answer_witness :
  outcome (callbackHandle Sample.here Sample.T1 (Complete 0))
    (Sample.holding_T1 Sample.in_memory)
  = Resolved tt
  /\ extended_by [] [Sample.T1]
       (collections (Sample.holding_T1 Sample.in_memory) Sample.here)
       (collections
          (final (callbackHandle Sample.here Sample.T1 (Complete 0))
             (Sample.holding_T1 Sample.in_memory))
          Sample.here).
Proof.
  destruct (dispatch_appends_the_answer Sample.here Sample.T1 (Complete 0)
              (Sample.holding_T1 Sample.in_memory)
              (success [Sample.T1]) [Sample.T1]
              (snd (Sample.finishing Sample.T1
                      (todos (Sample.holding_T1 Sample.in_memory))))
              eq_refl eq_refl)
    as (Hout & Hext & _).
  split; [exact Hout | exact Hext].
Defined.

(** ** The first population of a collection *)

(** A collection as the constructor leaves it, populated from a success
    response, holds exactly the returned list, partitioned: [pendingItems] is
    the unfinished todos of the list and [doneItems] the finished ones, in
    the order of the list; the collection is sorted after the flags, no todo
    is in both arrays, and every held todo is bound to the collection. *)
Theorem first_population
    (self : loc) (id : Z) (token : string) (h : FullItemProcess.t)
    (getter : ItemGetter.t) (user : Z) (cutOffDate : Date)
    (w : World) (response : ToDoResponse) (items : list loc) (s : Store) :
  collections w self = new_ToDoItems id token h ->
  ItemGetter.getItems getter (ItemGetter.jwt getter) user cutOffDate (todos w)
  = (Resolved response, s) ->
  truthy (errorMessage response) = false ->
  toDos response = Some items ->
  let w' := final (populateItems self getter user cutOffDate) w in
  outcome (populateItems self getter user cutOffDate) w
  = Resolved {| code := 0; message := None |}
  /\ pendingItems (collections w' self) = unfinished_of s items
  /\ doneItems (collections w' self) = finished_of s items
  /\ sorted_by_flag self w'
  /\ (forall r, ~ (In r (pendingItems (collections w' self))
                   /\ In r (doneItems (collections w' self))))
  /\ all_bound self w'.
Proof.
  intros Hnew H Ht Hl. cbn zeta.
  unfold outcome, final. rewrite populateItems_run. cbn zeta.
  rewrite H. cbn [fst snd]. rewrite Ht, Hl. cbn [fst snd].
  set (w1 := responded (GetItems (ItemGetter.jwt getter) user cutOffDate) s w).
  assert (Hp : pendingItems (collections (final (processItems self items) w1) self)
               = unfinished_of s items).
  { rewrite processItems_pending. unfold w1. cbn. now rewrite Hnew. }
  assert (Hd : doneItems (collections (final (processItems self items) w1) self)
               = finished_of s items).
  { rewrite processItems_done. unfold w1. cbn. now rewrite Hnew. }
  split; [reflexivity|]. split; [exact Hp|]. split; [exact Hd|].
  split; [|split].
  - split; intros r Hr.
    + rewrite Hp in Hr. apply filter_In in Hr. destruct Hr as [_ Hr].
      rewrite processItems_finished. unfold w1. cbn.
      now destruct (Todo.finished (s r)).
    + rewrite Hd in Hr. apply filter_In in Hr. destruct Hr as [_ Hr].
      rewrite processItems_finished. exact Hr.
  - intros r [Hr1 Hr2]. rewrite Hp in Hr1. rewrite Hd in Hr2.
    apply filter_In in Hr1, Hr2. destruct Hr1 as [_ Hr1], Hr2 as [_ Hr2].
    rewrite Hr2 in Hr1. discriminate Hr1.
  - intros r Hr. unfold members in Hr. rewrite Hp, Hd in Hr.
    apply processItems_binds.
    apply in_app_iff in Hr. destruct Hr as [Hr|Hr];
      apply filter_In in Hr; tauto.
Qed.

Lemma first_population_witness :
  outcome (populateItems Sample.here
             (FullItemProcess.asItemGetter Demo.backend) 20 0)
    (Sample.fresh Demo.backend)
  = Resolved {| code := 0; message := None |}
  /\ pendingItems (collections Demo.populated Sample.here) = [Sample.T1]
  /\ doneItems (collections Demo.populated Sample.here) = [Sample.T2]
  /\ sorted_by_flag Sample.here Demo.populated
  /\ all_bound Sample.here Demo.populated.
Proof.
  destruct (first_population Sample.here 20 "jwt-20" Demo.backend
              (FullItemProcess.asItemGetter Demo.backend) 20 0
              (Sample.fresh Demo.backend)
              (success [Sample.T1; Sample.T2]) [Sample.T1; Sample.T2]
              (snd (Demo.listing Sample.store0))
              eq_refl eq_refl eq_refl eq_refl)
    as (Hout & Hp & Hd & Hs & _ & Hb).
  split; [exact Hout|]. split; [exact Hp|]. split; [exact Hd|].
  split; [exact Hs | exact Hb].
Defined.

(** ** The arrays stay sorted after the flags *)

Lemma processItems_sorted self items w :
  sorted_by_flag self w ->
  sorted_by_flag self (final (processItems self items) w).
Proof.
  intros [Hp Hd]. split; intros r Hr; rewrite processItems_finished.
  - rewrite processItems_pending in Hr. apply in_app_iff in Hr.
    destruct Hr as [Hr|Hr]; [now apply Hp|].
    apply filter_In in Hr. destruct Hr as [_ Hr].
    now destruct (Todo.finished (todos w r)).
  - rewrite processItems_done in Hr. apply in_app_iff in Hr.
    destruct Hr as [Hr|Hr]; [now apply Hd|].
    apply filter_In in Hr. tauto.
Qed.

Lemma responded_sorted self w ev (f : Remote) :
  sorted_by_flag self w -> keeps_flags self w f ->
  sorted_by_flag self (responded ev (snd (f (todos w))) w).
Proof.
  intros [Hp Hd] Hf. split; intros r Hr; cbn in *.
  - rewrite Hf; [now apply Hp|]. unfold members. apply in_app_iff. now left.
  - rewrite Hf; [now apply Hd|]. unfold members. apply in_app_iff. now right.
Qed.

(** A collection whose pending todos are unfinished and whose done todos
    are finished stays so: after any pass of [processItems], and after
    [populateItems] or a dispatch, however it settles, provided the
    capability call leaves the [finished] flag of the todos the collection
    holds as it finds it. A collection fresh from the constructor is sorted,
    being empty. *)
Theorem sorted_after_operation (self : loc) (w : World) :
  (members (collections w self) = [] -> sorted_by_flag self w)
  /\ (sorted_by_flag self w ->
      (forall items, sorted_by_flag self (final (processItems self items) w))
      /\ (forall getter user cutOffDate,
            keeps_flags self w
              (ItemGetter.getItems getter (ItemGetter.jwt getter) user
                 cutOffDate) ->
            sorted_by_flag self
              (final (populateItems self getter user cutOffDate) w))
      /\ (forall item operation,
            keeps_flags self w
              (answer (interfaceHandle (collections w self))
                 (capability_call (collections w self) (todos w item) item
                    operation)) ->
            sorted_by_flag self
              (final (callbackHandle self item operation) w))).
Proof.
  split.
  - unfold members. intro Hnil. apply app_eq_nil in Hnil.
    destruct Hnil as [Hp Hd].
    split; intros r Hr; [rewrite Hp in Hr | rewrite Hd in Hr]; destruct Hr.
  - intro Hs. split; [|split].
    + intro items. now apply processItems_sorted.
    + intros getter user cutOffDate Hkeep.
      unfold final. rewrite populateItems_run. cbn zeta.
      pose proof (responded_sorted self w
                    (GetItems (ItemGetter.jwt getter) user cutOffDate)
                    _ Hs Hkeep) as H1.
      destruct (fst _) as [items|e]; [|exact H1].
      destruct (truthy _); [exact H1|].
      destruct (toDos items) as [l|]; [|exact H1].
      now apply processItems_sorted.
    + intros item operation Hkeep.
      unfold final. rewrite callbackHandle_run. cbn zeta.
      pose proof (responded_sorted self w
                    (capability_call (collections w self) (todos w item) item
                       operation)
                    _ Hs Hkeep) as H1.
      unfold settle.
      destruct (fst _) as [response|e]; [|exact H1].
      destruct (toDos response) as [l|]; [|exact H1].
      now apply processItems_sorted.
Qed.

Lemma sorted_after_operation_witness :
  sorted_by_flag Sample.here (Sample.fresh Sample.archive)
  /\ sorted_by_flag Sample.here
       (final (callbackHandle Sample.here Sample.T1 (Complete 0))
          (Sample.holding_T1 Sample.archive))
  /\ doneItems
       (collections
          (final (callbackHandle Sample.here Sample.T1 (Complete 0))
             (Sample.holding_T1 Sample.archive))
          Sample.here)
     = [Sample.T2].
Proof.
  assert (Hs : sorted_by_flag Sample.here (Sample.holding_T1 Sample.archive)).
  { split; intros r Hr.
    - destruct Hr as [<-|[]]. reflexivity.
    - destruct Hr. }
  assert (Hkeep : keeps_flags Sample.here (Sample.holding_T1 Sample.archive)
                    (Sample.finishing Sample.T2)).
  { intros r [<-|[]]. reflexivity. }
  split; [|split].
  - apply (sorted_after_operation Sample.here (Sample.fresh Sample.archive)).
    reflexivity.
  - apply (sorted_after_operation Sample.here
             (Sample.holding_T1 Sample.archive));
      [exact Hs | exact Hkeep].
  - reflexivity.
Defined.

(** ** Which collection a todo dispatches to *)

(** The last pass owns the trigger. When a collection [A] and then a
    collection [B] have processed a todo, [performOperation] on it is a
    dispatch of [B]: with [B]'s credentials and collaborator, and appending
    to [B]'s arrays; if [A] is another collection, it may still hold the todo
    but the operation leaves it as it was. *)
Theorem last_pass_owns_the_trigger
    (A B : loc) (first second : list loc) (item : loc)
    (operation : Operation) (w : World) :
  In item second ->
  let w2 := final (processItems B second) (final (processItems A first) w) in
  Todo.handleTrigger (todos w2 item) = Some B
  /\ performOperation item operation w2 = callbackHandle B item operation w2
  /\ (A <> B ->
      collections (final (performOperation item operation) w2) A
      = collections w2 A).
Proof.
  intro Hin. cbn zeta.
  assert (Hb : Todo.handleTrigger
                 (todos (final (processItems B second)
                           (final (processItems A first) w)) item)
               = Some B) by now apply processItems_binds.
  assert (E : performOperation item operation
                (final (processItems B second) (final (processItems A first) w))
              = callbackHandle B item operation
                  (final (processItems B second)
                     (final (processItems A first) w))).
  { unfold performOperation, bind, read_todo. now rewrite Hb. }
  split; [exact Hb|]. split; [exact E|].
  intro Hne. unfold final at 1. rewrite E.
  now apply callbackHandle_other_collections.
Qed.

Lemma last_pass_owns_the_trigger_witness :
  In Sample.T1
    (pendingItems
       (collections
          (final (processItems Sample.there [Sample.T1])
             (Sample.holding_T1 Sample.archive))
          Sample.here))
  /\ Todo.handleTrigger
       (todos
          (final (processItems Sample.there [Sample.T1])
             (Sample.holding_T1 Sample.archive))
          Sample.T1)
     = Some Sample.there
  /\ collections
       (final (performOperation Sample.T1 (Complete 0))
          (final (processItems Sample.there [Sample.T1])
             (Sample.holding_T1 Sample.archive)))
       Sample.here
     = collections
         (final (processItems Sample.there [Sample.T1])
            (Sample.holding_T1 Sample.archive))
         Sample.here.
Proof.
  destruct (last_pass_owns_the_trigger Sample.here Sample.there
              [Sample.T1] [Sample.T1] Sample.T1 (Complete 0)
              (Sample.fresh Sample.archive))
    as (Hb & _ & Hframe).
  { now left. }
  split; [now left|]. split; [exact Hb|].
  apply Hframe. discriminate.
Defined.

(** After a successful [populateItems], [performOperation] on any todo of
    the returned list is a dispatch of the populated collection: the two
    capability calls made since are [getItems], with the getter's token and
    the given user, and the call of the operation, with the collection's own
    [jwt] and [userId]. *)
Theorem populated_todos_dispatch
    (self : loc) (getter : ItemGetter.t) (user : Z) (cutOffDate : Date)
    (w : World) (response : ToDoResponse) (items : list loc) (s : Store)
    (item : loc) (operation : Operation) :
  ItemGetter.getItems getter (ItemGetter.jwt getter) user cutOffDate (todos w)
  = (Resolved response, s) ->
  truthy (errorMessage response) = false ->
  toDos response = Some items ->
  In item items ->
  let w' := final (populateItems self getter user cutOffDate) w in
  performOperation item operation w' = callbackHandle self item operation w'
  /\ calls (final (performOperation item operation) w')
     = calls w
       ++ [GetItems (ItemGetter.jwt getter) user cutOffDate;
           capability_call (collections w self) (s item) item operation].
Proof.
  intros H Ht Hl Hin. cbn zeta.
  assert (Hw : final (populateItems self getter user cutOffDate) w
               = final (processItems self items)
                   (responded (GetItems (ItemGetter.jwt getter) user cutOffDate)
                      s w)).
  { unfold final at 1. rewrite populateItems_run. cbn zeta.
    rewrite H. cbn [fst snd]. now rewrite Ht, Hl. }
  rewrite Hw.
  set (w1 := responded (GetItems (ItemGetter.jwt getter) user cutOffDate) s w).
  assert (Hb : Todo.handleTrigger (todos (final (processItems self items) w1) item)
               = Some self) by now apply processItems_binds.
  assert (E : performOperation item operation (final (processItems self items) w1)
              = callbackHandle self item operation
                  (final (processItems self items) w1)).
  { unfold performOperation, bind, read_todo. now rewrite Hb. }
  split; [exact E|].
  unfold final at 1. rewrite E.
  change (snd (callbackHandle self item operation
                 (final (processItems self items) w1)))
    with (final (callbackHandle self item operation)
            (final (processItems self items) w1)).
  rewrite callbackHandle_calls, processItems_calls.
  destruct (processItems_frame self items w1) as (Hu & Hj & _ & _).
  assert (Hid : Todo.id (todos (final (processItems self items) w1) item)
                = Todo.id (s item)).
  { rewrite processItems_todos. unfold w1. cbn [responded todos].
    destruct (existsb (Nat.eqb item) items); reflexivity. }
  assert (Hev : capability_call
                  (collections (final (processItems self items) w1) self)
                  (todos (final (processItems self items) w1) item) item
                  operation
                = capability_call (collections w self) (s item) item operation).
  { unfold capability_call. rewrite Hu, Hj, Hid. reflexivity. }
  rewrite Hev. unfold w1. cbn [responded calls].
  rewrite <- app_assoc. reflexivity.
Qed.

Lemma populated_todos_dispatch_witness :
  performOperation Sample.T2 (Reassign 30 0) Demo.populated
  = callbackHandle Sample.here Sample.T2 (Reassign 30 0) Demo.populated
  /\ calls (final (performOperation Sample.T2 (Reassign 30 0)) Demo.populated)
     = [GetItems "jwt-20" 20 0; ReassignItem "jwt-20" 20 2 30 0].
Proof.
  apply (populated_todos_dispatch Sample.here
           (FullItemProcess.asItemGetter Demo.backend) 20 0
           (Sample.fresh Demo.backend)
           (success [Sample.T1; Sample.T2]) [Sample.T1; Sample.T2]
           (snd (Demo.listing Sample.store0))
           Sample.T2 (Reassign 30 0));
    try reflexivity.
  right. now left.
Defined.

(** ** Todos that no collection has processed *)

(** A todo as [new Todo] makes it has no trigger, whatever the parameters:
    [performOperation] on it resolves and does nothing for every operation,
    [Create] included, so no capability call is made for a todo until some
    collection has processed it. *)
Theorem new_Todo_ignores_operations
    (this : loc) (now : Date) (p : Todo.params) (operation : Operation)
    (w : World) :
  todos w this = Todo.new now p ->
  performOperation this operation w = (Resolved tt, w).
Proof.
  intro H. unfold performOperation, bind, read_todo. now rewrite H.
Qed.

Lemma new_Todo_ignores_operations_witness :
  performOperation Sample.T1 (Create 0) (Sample.fresh Demo.backend)
  = (Resolved tt, Sample.fresh Demo.backend).
Proof.
  apply (new_Todo_ignores_operations Sample.T1 1000 (Demo.required 1)).
  reflexivity.
Defined.

(** ** [NewTodo] *)

(** [assignDate] after the constructor gives the todo that the constructor
    builds from the same parameters with that date, an omitted date being
    the current time; and of two calls of [assignDate] the last one wins. *)
Theorem NewTodo_assignDate
    (now now' : Date) (date date' : option Date) (p : NewTodo.params)
    (x : NewTodo.t) :
  NewTodo.assignDate now date (NewTodo.new p)
  = NewTodo.new
      (NewTodo.dated (match date with Some d => d | None => now end) p)
  /\ NewTodo.assignDate now' date' (NewTodo.assignDate now date x)
     = NewTodo.assignDate now' date' x.
Proof. split; reflexivity. Qed.

(** ** The four capability methods called on their own *)

(** [completeItem], [deleteItem], [createItem] and [reassignItem] are public
    and only relay: called on their own they leave every collection as it
    was and bind no trigger, the store being what the collaborator left; it
    is [callbackHandle] that processes the list they return. *)
Theorem capability_methods_only_relay
    (self : loc) (item : loc) (newId : Z) (cutOffDate : Date) (w : World) :
  let c := collections w self in
  let h := interfaceHandle c in
  let i := Todo.id (todos w item) in
  (collections (final (completeItem self item cutOffDate) w) = collections w
   /\ todos (final (completeItem self item cutOffDate) w)
      = snd (FullItemProcess.completeItem h (jwt c) (userId c) i cutOffDate
               (todos w)))
  /\ (collections (final (deleteItem self item cutOffDate) w) = collections w
      /\ todos (final (deleteItem self item cutOffDate) w)
         = snd (FullItemProcess.deleteItem h (jwt c) (userId c) i cutOffDate
                  (todos w)))
  /\ (collections (final (createItem self item cutOffDate) w) = collections w
      /\ todos (final (createItem self item cutOffDate) w)
         = snd (FullItemProcess.createItem h (jwt c) (userId c) item
                  cutOffDate (todos w)))
  /\ (collections (final (reassignItem self item newId cutOffDate) w)
      = collections w
      /\ todos (final (reassignItem self item newId cutOffDate) w)
         = snd (FullItemProcess.reassignItem h (jwt c) (userId c) i newId
                  cutOffDate (todos w))).
Proof.
  cbn zeta.
  repeat split;
    unfold final, completeItem, deleteItem, createItem, reassignItem,
      bind, this_, read_todo, await_remote, handleResponse, ret, throw;
    settle_call; cbn; try reflexivity;
    match goal with
    | |- context [toDos ?response] => destruct (toDos response)
    end; reflexivity.
Qed.
